(** * statshub: ingestion handler and periodic archiver

  A shallow embedding of the two Go sources of the repository:
  - [statshub/statshub.go]: the [/stats/] HTTP handler, its request
    parsing and its hash based authentication;
  - the [archive] package: [Start], [archivePeriodically] and
    [archiveToBigQuery].

  Go values are modelled as the code has them: [int64] and
  [time.Duration] as [Z] with the wrap-around (or saturation) written
  out, Go strings as byte strings ([string]), Go maps as [gmap], errors
  as their message text, and calls to external collaborators (OAuth,
  Redis, BigQuery, the wall clock) as oracles of an environment whose
  answers are threaded through an explicit world. *)

From Stdlib Require Import ZArith List Ascii String Lia Permutation.
From stdpp Require Import base option list strings pretty gmap fin_maps.

Local Open Scope string_scope.
Local Open Scope Z_scope.

(** ** Go base types *)

Module Go.

(** [int64]: two's complement wrap-around on 64 bits. *)
Definition minInt64 : Z := - 2 ^ 63.
Definition maxInt64 : Z := 2 ^ 63 - 1.

Definition inInt64 (x : Z) : Prop := minInt64 <= x <= maxInt64.
Definition inInt64b (x : Z) : bool := (minInt64 <=? x) && (x <=? maxInt64).

Definition wrap64 (x : Z) : Z := (x + 2 ^ 63) mod 2 ^ 64 - 2 ^ 63.

(** [a + b] on [int64] operands. *)
Definition add64 (a b : Z) : Z := wrap64 (a + b).

(** A Go [error] is carried by its message; [nil] is [None]. *)
Definition error : Type := string.

(** The bytes of a Go string. *)
Definition bytes (s : string) : list Z :=
  map (fun c => Z.of_N (N_of_ascii c)) (list_ascii_of_string s).

(** [fmt.Sprintf("%d", n)] for an integer [n]. *)
Definition fmt_d (n : Z) : string := pretty n.

End Go.

(** ** crypto/sha256 and encoding/hex

  The digest of the standard library ([sha256.New], [Write],
  [Sum(nil)]), written out after FIPS 180-4 on 32-bit words. *)

Module Sha256.

Definition w32 (x : Z) : Z := x mod 2 ^ 32.
Definition add32 (a b : Z) : Z := w32 (a + b).
Definition rotr (n x : Z) : Z :=
  Z.lor (Z.shiftr x n) (w32 (Z.shiftl x (32 - n))).
Definition shr (n x : Z) : Z := Z.shiftr x n.
Definition not32 (x : Z) : Z := Z.lxor x 0xffffffff.
Definition xor3 (a b c : Z) : Z := Z.lxor (Z.lxor a b) c.

Definition Ch (x y z : Z) : Z := Z.lxor (Z.land x y) (Z.land (not32 x) z).
Definition Maj (x y z : Z) : Z :=
  xor3 (Z.land x y) (Z.land x z) (Z.land y z).
Definition bsig0 (x : Z) : Z := xor3 (rotr 2 x) (rotr 13 x) (rotr 22 x).
Definition bsig1 (x : Z) : Z := xor3 (rotr 6 x) (rotr 11 x) (rotr 25 x).
Definition ssig0 (x : Z) : Z := xor3 (rotr 7 x) (rotr 18 x) (shr 3 x).
Definition ssig1 (x : Z) : Z := xor3 (rotr 17 x) (rotr 19 x) (shr 10 x).

(** The constants of the standard are fractional parts of roots of
  primes: the round constants are the first 32 bits of the fractional
  part of the cube root of each of the first 64 primes, the initial
  hash value those of the square root of each of the first 8. *)
Fixpoint cbrt_bits (b : nat) (n r : Z) : Z :=
  match b with
  | O => r
  | S b' =>
      let c := r + 2 ^ Z.of_nat b' in
      cbrt_bits b' n (if c * c * c <=? n then c else r)
  end.

(** The integer cube root of [n < 2 ^ 120]. *)
Definition cbrt (n : Z) : Z := cbrt_bits 40 n 0.

Definition isPrime (n : Z) : bool :=
  forallb (fun d => negb (n mod Z.of_nat d =? 0)) (seq 2 (Z.to_nat n - 2)).

(** The primes up to 311, the 64th. *)
Definition primes : list Z :=
  List.filter isPrime (map Z.of_nat (seq 2 310)).

Definition K : list Z :=
  map (fun p => w32 (cbrt (p * 2 ^ 96))) primes.

Definition init : list Z :=
  map (fun p => w32 (Z.sqrt (p * 2 ^ 64))) (firstn 8 primes).

(** Big-endian encoding of [x] on [n] bytes. *)
Fixpoint be_bytes (n : nat) (x : Z) : list Z :=
  match n with
  | O => []
  | S n' => (Z.shiftr x (8 * Z.of_nat n')) mod 256 :: be_bytes n' x
  end.

Definition be_word (bs : list Z) : Z :=
  fold_left (fun acc b => acc * 256 + b) bs 0.

(** Padding: a one bit, zeros up to 56 mod 64, the bit length on 8 bytes. *)
Definition pad (msg : list Z) : list Z :=
  let len := Z.of_nat (length msg) in
  msg ++ [0x80] ++ repeat 0 (Z.to_nat ((55 - len) mod 64))
      ++ be_bytes 8 (8 * len).

Fixpoint chunks (k : nat) (fuel : nat) (l : list Z) : list (list Z) :=
  match fuel with
  | O => []
  | S fuel' =>
      match l with
      | [] => []
      | _ => firstn k l :: chunks k fuel' (skipn k l)
      end
  end.

Definition words (block : list Z) : list Z :=
  map be_word (chunks 4 16 block).

(** The message schedule, extended one word at a time. *)
Fixpoint schedule (n : nat) (w : list Z) : list Z :=
  match n with
  | O => w
  | S n' =>
      let t := length w in
      let at_ (k : nat) := nth (t - k) w 0 in
      schedule n'
        (w ++ [add32 (add32 (ssig1 (at_ 2%nat)) (at_ 7%nat))
                     (add32 (ssig0 (at_ 15%nat)) (at_ 16%nat))])
  end.

Record regs := Regs { ra : Z; rb : Z; rc : Z; rd : Z;
                      re : Z; rf : Z; rg : Z; rh : Z }.

Definition round (s : regs) (kw : Z * Z) : regs :=
  let t1 := add32 (add32 (add32 (rh s) (bsig1 (re s)))
                         (add32 (Ch (re s) (rf s) (rg s)) (fst kw)))
                  (snd kw) in
  let t2 := add32 (bsig0 (ra s)) (Maj (ra s) (rb s) (rc s)) in
  Regs (add32 t1 t2) (ra s) (rb s) (rc s) (add32 (rd s) t1)
       (re s) (rf s) (rg s).

Definition regs_of (h : list Z) : regs :=
  Regs (nth 0 h 0) (nth 1 h 0) (nth 2 h 0) (nth 3 h 0)
       (nth 4 h 0) (nth 5 h 0) (nth 6 h 0) (nth 7 h 0).

Definition list_of (s : regs) : list Z :=
  [ra s; rb s; rc s; rd s; re s; rf s; rg s; rh s].

Definition compress (h : list Z) (block : list Z) : list Z :=
  let w := schedule 48 (words block) in
  let s := fold_left round (combine K w) (regs_of h) in
  zip_with add32 h (list_of s).

(** [hasher.Write(msg); hasher.Sum(nil)] on a fresh hasher. *)
Definition Sum (msg : list Z) : list Z :=
  let p := pad msg in
  let h := fold_left compress (chunks 64 (length p) p) init in
  flat_map (be_bytes 4) h.

End Sha256.

Module Hex.

Definition hextable : string := "0123456789abcdef".

Definition digit (n : Z) : ascii :=
  match String.get (Z.to_nat n) hextable with
  | Some c => c
  | None => "0"%char
  end.

(** [hex.EncodeToString]: two lower-case digits per byte. *)
Fixpoint EncodeToString (src : list Z) : string :=
  match src with
  | [] => EmptyString
  | b :: rest =>
      String (digit (Z.shiftr b 4))
        (String (digit (Z.land b 0x0f)) (EncodeToString rest))
  end.

End Hex.


(** ** A small state monad

  Code that talks to the outside world threads one world value through
  its calls. *)

Module StateM.

Definition M (S A : Type) : Type := S -> A * S.

Definition ret {S A} (a : A) : M S A := fun s => (a, s).

Definition bind {S A B} (m : M S A) (k : A -> M S B) : M S B :=
  fun s => let '(a, s') := m s in k a s'.

Definition modify {S} (f : S -> S) : M S unit := fun s => (tt, f s).

Definition exec {S A} (m : M S A) (s : S) : S := snd (m s).
Definition eval {S A} (m : M S A) (s : S) : A := fst (m s).

End StateM.

Notation "x <- m ;; k" := (StateM.bind m (fun x => k))
(at level 100, m at level 99, right associativity).
Notation "m ;;; k" := (StateM.bind m (fun _ => k))
(at level 100, right associativity).

(** ** package statshub *)

Module Statshub.
Import StateM.

(** *** Types of statshub.go *)

Record UserInfo := mkUserInfo {
  UserId : Z;          (* int64 *)
  Hash : string        (* sha256(real userid + userid) *)
}.

Record Stats := mkStats {
  Counter : gmap string Z;
  Gauge : gmap string Z;
  Presence : gmap string Z
}.

Record Response := mkResponse {
  Succeeded : bool;
  Error : string
}.

Definition newStats : Stats := mkStats ∅ ∅ ∅.

(** Modelled from the spec: the type [StatsSubmission] that [postStats]
    decodes into is declared outside the files at hand; the request
    body carries the three mappings of a stats bundle (and, in the
    example of the package comment, a country code). *)
Record StatsSubmission := mkSubmission {
  CountryCode : string;
  Bundle : Stats
}.

(** *** The request, the response writer and the world *)

(** The parts of [*http.Request] the handler reads: [r.Method],
    [r.URL.Path], [r.URL.Query()] and [r.Body]. *)
Record Request := mkRequest {
  Method : string;
  Path : string;
  Query : gmap string (list string);
  Body : string
}.

(** [user.User]; only [Email] is read. *)
Record User := mkUser { Email : string }.

(** What [write] hands to [json.Marshal]. *)
Inductive Payload :=
| PNil
| PResponse (resp : Response)
| PStats (stats : Stats).

(** The aggregation store: (dimension, entity) to bundle. *)
Abbreviation Store := (gmap (string * string) Stats).

(** [http.ResponseWriter]: the header map, the status line once
    [WriteHeader] ran, and the bytes written so far. *)
Record ResponseWriter := mkWriter {
  header : gmap string string;
  status : option Z;
  body : string
}.

(** A call that reached the Redis client. *)
Inductive RedisCall :=
| CPost (userId : Z) (stats : StatsSubmission)
| CConnect
| CQuery (userId : Z).

Record World := mkWorld {
  writer : ResponseWriter;
  store : Store;
  redisCalls : list RedisCall;
  log : list string
}.

(** The two ways [strconv.Atoi] fails. *)
Inductive NumErr := ErrSyntax | ErrRange.

(** The external collaborators of one request. *)
Record Env := mkEnv {
  (* user.CurrentOAuth(appengine.NewContext(r), "") *)
  CurrentOAuth : Request -> Go.error + User;
  (* json.NewDecoder(r.Body).Decode(stats) *)
  Decode : string -> Go.error + StatsSubmission;
  (* json.Marshal *)
  Marshal : Payload -> Go.error + string;
  (* failure of the Redis write, of connectToRedis and of query *)
  postErr : option Go.error;
  connectErr : option Go.error;
  queryErr : option Go.error;
  (* the text of the *strconv.NumError Atoi returns for an input *)
  AtoiErrorText : string -> NumErr -> string;
  (* the %s rendering of url.Values *)
  FormatValues : gmap string (list string) -> string
}.

(** *** Library functions used by getUserInfo *)

Fixpoint lastIndexFrom (i : Z) (sep : ascii) (s : string) (acc : Z) : Z :=
  match s with
  | EmptyString => acc
  | String c s' =>
      lastIndexFrom (i + 1) sep s' (if Ascii.eqb c sep then i else acc)
  end.

(** [strings.LastIndex(s, sep)] for a one byte separator; [-1] when
    absent. *)
Definition LastIndex (s : string) (sep : ascii) : Z :=
  lastIndexFrom 0 sep s (-1).

Fixpoint dropn (n : nat) (s : string) : string :=
  match n, s with
  | O, _ => s
  | S n', String _ s' => dropn n' s'
  | S _, EmptyString => EmptyString
  end.

(** [s[i:]] *)
Definition sliceFrom (s : string) (i : Z) : string := dropn (Z.to_nat i) s.

Definition isDigit (c : ascii) : bool :=
  let n := Z.of_N (N_of_ascii c) in (48 <=? n) && (n <=? 57).

Definition maxUint64 : Z := 2 ^ 64 - 1.

(** [strconv.ParseUint(s, 10, 64)] on a non-empty string: digits are
    consumed left to right, and the first failure met decides. *)
Fixpoint parseUint (s : string) (n : Z) : NumErr + Z :=
  match s with
  | EmptyString => inr n
  | String c s' =>
      if isDigit c then
        let n1 := n * 10 + (Z.of_N (N_of_ascii c) - 48) in
        if n1 >? maxUint64 then inl ErrRange else parseUint s' n1
      else inl ErrSyntax
  end.

(** [strconv.Atoi] with a 64-bit [int]. *)
Definition Atoi (s : string) : NumErr + Z :=
  match s with
  | EmptyString => inl ErrSyntax
  | String c s' =>
      let neg := Ascii.eqb c "-" in
      let digits := if neg || Ascii.eqb c "+" then s' else s in
      match digits with
      | EmptyString => inl ErrSyntax
      | _ =>
          match parseUint digits 0 with
          | inl e => inl e
          | inr un =>
              if negb neg && (2 ^ 63 <=? un) then inl ErrRange
              else if neg && (2 ^ 63 <? un) then inl ErrRange
              else inr (if neg then - un else un)
          end
      end
  end.

(** *** getUserInfo *)

Definition getUserInfo (env : Env) (r : Request) : Go.error + UserInfo :=
  let lastSlash := LastIndex (Path r) "/" in
  if lastSlash =? 0 then inl "Request URL is missing user id"
  else
    let userIdString := sliceFrom (Path r) (lastSlash + 1) in
    match Atoi userIdString with
    | inl e =>
        inl ("Unable to convert userId " ++ userIdString ++ " to int: "
             ++ AtoiErrorText env userIdString e)
    | inr userIdInt =>
        match Query r !! "hash" with
        | None => inl "No hash provided in querystring"
        | Some hashes =>
            match hashes with
            | [h] => inr (mkUserInfo userIdInt h)
            | _ => inl "Wrong number of hashes provided in querystring"
            end
        end
    end.

(** *** authenticateAgainst *)

Definition logPrintf (line : string) : M World unit :=
  modify (fun σ =>
    mkWorld (writer σ) (store σ) (redisCalls σ) (log σ ++ [line])).

(** [hex(sha256(email ++ decimal userId))] *)
Definition expectedHash (email : string) (userId : Z) : string :=
  let hashInput := email ++ Go.fmt_d userId in
  Hex.EncodeToString (Sha256.Sum (Go.bytes hashInput)).

(** Returns the status code and the error, [(0, nil)] on success. *)
Definition authenticateAgainst (env : Env) (userInfo : UserInfo)
    (r : Request) : M World (Z * option Go.error) :=
  match CurrentOAuth env r with
  | inl err => ret (401, Some ("Not authenticated: " ++ err))
  | inr currentUser =>
      let expected := expectedHash (Email currentUser) (UserId userInfo) in
      logPrintf ("Expected hash: " ++ expected) ;;;
      if negb (String.eqb expected (Hash userInfo))
      then ret (403, Some "Hash mismatch, authentication failure")
      else ret (0, None)
  end.

(** *** The response writer *)

Definition onWriter (f : ResponseWriter -> ResponseWriter) : M World unit :=
  modify (fun σ => mkWorld (f (writer σ)) (store σ) (redisCalls σ) (log σ)).

(** [w.Header().Set(k, v)] *)
Definition HeaderSet (k v : string) : M World unit :=
  onWriter (fun w => mkWriter (<[k := v]> (header w)) (status w) (body w)).

(** [w.WriteHeader(code)]: the first call fixes the status line. *)
Definition WriteHeader (code : Z) : M World unit :=
  onWriter (fun w =>
    match status w with
    | Some _ => w
    | None => mkWriter (header w) (Some code) (body w)
    end).

(** [w.Write(bytes)]: an implicit [WriteHeader(200)] when none ran. *)
Definition Write (bytes : string) : M World unit :=
  onWriter (fun w =>
    mkWriter (header w)
             (match status w with Some c => Some c | None => Some 200 end)
             (body w ++ bytes)).

Definition write (env : Env) (statusCode : Z) (data : Payload)
    : M World unit :=
  WriteHeader statusCode ;;;
  match Marshal env data with
  | inr bytes => Write bytes
  | inl err => logPrintf ("Unable to respond to client: " ++ err)
  end.

Definition fail (env : Env) (statusCode : Z) (err : Go.error)
    : M World unit :=
  let response := mkResponse false err in
  write env statusCode (PResponse response).

(** *** The aggregation store *)

(** Modelled from the spec: the counter rule of the Submission
    Processor, "for each stat name in counter, add to existing value
    (existing default 0)", with the plain [int64] addition the design
    notes describe. *)
Definition mergeCounter (existing incoming : gmap string Z)
    : gmap string Z :=
  map_fold (fun name v acc =>
              <[name := Go.add64 (default 0 (acc !! name)) v]> acc)
           existing incoming.

(** Modelled from the spec: "for gauge and presence, overwrite". *)
Definition mergeOverwrite (existing incoming : gmap string Z)
    : gmap string Z :=
  map_fold (fun name v acc => <[name := v]> acc) existing incoming.

Definition mergeStats (existing incoming : Stats) : Stats :=
  mkStats (mergeCounter (Counter existing) (Counter incoming))
          (mergeOverwrite (Gauge existing) (Gauge incoming))
          (mergeOverwrite (Presence existing) (Presence incoming)).

(** Modelled from the spec: the target is dimension [user], the entity
    key the string form of the anonymized user id. *)
Definition entityKey (userId : Z) : string * string :=
  ("user", Go.fmt_d userId).

(** Modelled from the spec: the read-modify-write of the Submission
    Processor on the entry of one user; entities are created on first
    submission. *)
Definition submit (userId : Z) (incoming : Stats) (s : Store) : Store :=
  <[entityKey userId :=
      mergeStats (default newStats (s !! entityKey userId)) incoming]> s.

(** Modelled from the spec: [StatsSubmission.postToRedis] is defined
    outside the files at hand. On store failure the error is surfaced
    and nothing is written; otherwise the bundle is merged. *)
Definition redisCall (c : RedisCall) : M World unit :=
  modify (fun σ =>
    mkWorld (writer σ) (store σ) (redisCalls σ ++ [c]) (log σ)).

Definition postToRedis (env : Env) (stats : StatsSubmission) (userId : Z)
    : M World (option Go.error) :=
  redisCall (CPost userId stats) ;;;
  match postErr env with
  | Some err => ret (Some err)
  | None =>
      modify (fun σ =>
        mkWorld (writer σ) (submit userId (Bundle stats) (store σ))
                (redisCalls σ) (log σ)) ;;;
      ret None
  end.

(** Modelled from the spec: [connectToRedis] and [query] are defined
    outside the files at hand; a successful read returns the bundle
    stored for the user. *)
Definition connectToRedis (env : Env) : M World (option Go.error) :=
  redisCall CConnect ;;;
  ret (connectErr env).

Definition query (env : Env) (userId : Z) : M World (Go.error + Stats) :=
  redisCall (CQuery userId) ;;;
  fun σ =>
    match queryErr env with
    | Some err => (inl err, σ)
    | None => (inr (default newStats (store σ !! entityKey userId)), σ)
    end.

(** *** postStats, getStats *)

Definition postStats (env : Env) (r : Request) (userInfo : UserInfo)
    : M World (Z * Payload * option Go.error) :=
  match Decode env (Body r) with
  | inl err => ret (400, PNil, Some ("Unable to decode request: " ++ err))
  | inr stats =>
      e <- postToRedis env stats (UserId userInfo) ;;
      match e with
      | Some err => ret (500, PNil, Some ("Unable to post stats: " ++ err))
      | None => ret (200, PResponse (mkResponse true EmptyString), None)
      end
  end.

Definition getStats (env : Env) (r : Request) (userInfo : UserInfo)
    : M World (Z * Payload * option Go.error) :=
  c <- connectToRedis env ;;
  match c with
  | Some err =>
      ret (500, PNil, Some ("Unable to connect to redis: " ++ err))
  | None =>
      q <- query env (UserId userInfo) ;;
      match q with
      | inl err => ret (500, PNil, Some ("Unable to query stats: " ++ err))
      | inr resp => ret (200, PStats resp, None)
      end
  end.

(** *** statsHandler *)

Definition statsHandler (env : Env) (r : Request) : M World unit :=
  match getUserInfo env r with
  | inl err => fail env 400 err
  | inr userInfo =>
      a <- authenticateAgainst env userInfo r ;;
      match a with
      | (statusCode, Some err) => fail env statusCode err
      | (_, None) =>
          if String.eqb "POST" (Method r) then
            HeaderSet "Content-Type" "application/json" ;;;
            res <- postStats env r userInfo ;;
            match res with
            | (statusCode, _, Some err) => fail env statusCode err
            | (_, resp, None) => write env 200 resp
            end
          else if String.eqb "GET" (Method r) then
            HeaderSet "Content-Type" "application/json" ;;;
            res <- getStats env r userInfo ;;
            match res with
            | (statusCode, _, Some err) => fail env statusCode err
            | (_, resp, None) => write env 200 resp
            end
          else
            logPrintf ("Query: " ++ FormatValues env (Query r)) ;;;
            WriteHeader 405
      end
  end.

(** The world a request starts in: a fresh response writer. *)
Definition freshWriter : ResponseWriter := mkWriter ∅ None EmptyString.

Definition serve (env : Env) (r : Request) (s : Store) (l : list string)
    : World :=
  exec (statsHandler env r) (mkWorld freshWriter s [] l).

(** The status line the client receives. *)
Definition statusOf (env : Env) (r : Request) (s : Store) : option Z :=
  status (writer (serve env r s [])).

(** *** The status codes as the interface description lists them *)

(** The path segment after the last slash. *)
Definition userIdSegment (r : Request) : string :=
  sliceFrom (Path r) (LastIndex (Path r) "/" + 1).

(** The user id is missing or is not an integer. *)
Definition badUserId (r : Request) : bool :=
  (LastIndex (Path r) "/" =? 0)
  || match Atoi (userIdSegment r) with inl _ => true | inr _ => false end.

(** The [hash] parameter is missing or does not occur exactly once. *)
Definition badHash (r : Request) : bool :=
  match Query r !! "hash" with
  | Some [_] => false
  | _ => true
  end.

Definition claimedId (r : Request) : Z :=
  match Atoi (userIdSegment r) with inr n => n | inl _ => 0 end.

Definition claimedHash (r : Request) : string :=
  match Query r !! "hash" with
  | Some [h] => h
  | _ => EmptyString
  end.

(** The caller is authenticated and the supplied hash is the computed
    one. *)
Definition hashMatches (u : User) (r : Request) : bool :=
  String.eqb (claimedHash r) (expectedHash (Email u) (claimedId r)).

(** Authentication fails: no authenticated caller, or a hash other
    than the computed one. *)
Definition authFails (env : Env) (r : Request) : bool :=
  match CurrentOAuth env r with
  | inl _ => true
  | inr u => negb (hashMatches u r)
  end.

Definition isSome {A} (o : option A) : bool :=
  match o with Some _ => true | None => false end.

(** Status by method, for a well-formed and authenticated request. *)
Definition specMethodStatus (env : Env) (r : Request) : Z :=
  if String.eqb (Method r) "POST" then
    match Decode env (Body r) with
    | inl _ => 400
    | inr _ => if isSome (postErr env) then 500 else 200
    end
  else if String.eqb (Method r) "GET" then
    if isSome (connectErr env) || isSome (queryErr env) then 500 else 200
  else 405.

(** The status the interface description assigns to a request, its
    conditions read in the order: malformed, unauthenticated, hash
    mismatch, then the method. *)
Definition specStatus (env : Env) (r : Request) : Z :=
  if badUserId r || badHash r then 400
  else
    match CurrentOAuth env r with
    | inl _ => 401
    | inr u => if hashMatches u r then specMethodStatus env r else 403
    end.

(** Successive submissions of one user, the store being reachable. *)
Definition submitAll (userId : Z) (subs : list Stats) (s : Store) : Store :=
  fold_left (fun acc sub => submit userId sub acc) subs s.

(** The counter value stored for a user and a stat name; [0] when the
    entity or the name is absent. *)
Definition storedCounter (s : Store) (userId : Z) (name : string) : Z :=
  default 0 (Counter (default newStats (s !! entityKey userId)) !! name).

(** The value one submission carries for a stat name. *)
Definition submitted (name : string) (sub : Stats) : Z :=
  default 0 (Counter sub !! name).

Definition sumSubmitted (name : string) (subs : list Stats) : Z :=
  fold_right Z.add 0 (map (submitted name) subs).

End Statshub.

(** ** package archive *)

Module Archive.
Import StateM.

(** *** package time

    A [time.Time] is the instant it denotes, counted in nanoseconds
    from the zero time (January 1, year 1, 00:00:00 UTC); a
    [time.Duration] is an [int64] count of nanoseconds. The readings of
    the wall clock lie centuries away from the ends of the range a
    [time.Time] can hold, so [Add] is plain addition on them, while
    [Sub] saturates to a [Duration] as the library does. *)

Definition Nanosecond : Z := 1.
Definition Microsecond : Z := 1000 * Nanosecond.
Definition Millisecond : Z := 1000 * Microsecond.
Definition Second : Z := 1000 * Millisecond.
Definition Minute : Z := 60 * Second.
Definition Hour : Z := 60 * Minute.

Definition minDuration : Z := Go.minInt64.
Definition maxDuration : Z := Go.maxInt64.

(** [t.Truncate(d)]: [t] rounded down to a multiple of [d] since the
    zero time; [t] itself when [d <= 0]. *)
Definition Truncate (t d : Z) : Z :=
  if d <=? 0 then t else t - t mod d.

(** [t.Add(d)] *)
Definition Add (t d : Z) : Z := t + d.

(** [t.Sub(u)]: the duration [t - u], saturated to a [Duration]. *)
Definition Sub (t u : Z) : Z :=
  let d := t - u in
  if d <? minDuration then minDuration
  else if maxDuration <? d then maxDuration
  else d.

(** The Unix epoch, counted from the zero time: 719162 days. *)
Definition unixEpoch : Z := 62135596800 * Second.

(** The boundary [archivePeriodically] sleeps until:
    [time.Now().Truncate(interval).Add(interval)]. *)
Definition nextBoundary (t i : Z) : Z := Add (Truncate t i) i.

(** *** Collaborators *)

(** Modelled from the spec: the value [statshub.QueryDims] maps a
    dimension name to is "the full current mapping of entity to
    StatsBundle". *)
Abbreviation DimStats := (gmap string Statshub.Stats).

(** Modelled from the spec: [NewStatsTable] is defined outside the
    files at hand; the handle it returns stands for one table of one
    dataset of one project. *)
Record StatsTable := mkTable {
  tProject : string;
  tDataset : string;
  tDim : string
}.

(** What a run does to the outside world, in order. *)
Inductive event :=
| ENow (t : Z)
| ESleep (d : Z)
| EQueryDims (dims : list string)
| ENewStatsTable (project dataset dim : string)
| EWriteStats (table : StatsTable) (stats : DimStats) (now : Z)
| ELog (line : string).

(** The answers of the outside world; the [nat] is the number of
    calls made before, so that every call may answer differently.
    A Go map is ranged over in an order the runtime picks:
    [QueryDims] gives the entries of its result in the order the
    range visits them. *)
Record Env := mkEnv {
  Now : nat -> Z;
  QueryDims : nat -> list string -> Go.error + list (string * DimStats);
  NewStatsTable : nat -> string -> string -> string -> Go.error + StatsTable;
  WriteStats : nat -> StatsTable -> DimStats -> Z -> option Go.error
}.

Record World := mkWorld {
  tick : nat;
  trace : list event
}.

Definition call {A} (answer : nat -> A) (ev : A -> event) : M World A :=
  fun w =>
    let a := answer (tick w) in
    (a, mkWorld (S (tick w)) (trace w ++ [ev a])).

Definition emit (ev : event) : M World unit :=
  modify (fun w => mkWorld (tick w) (trace w ++ [ev])).

(** The world after [n] more calls that left the events [evs]. *)
Definition advance (w : World) (n : nat) (evs : list event) : World :=
  mkWorld (n + tick w) (trace w ++ evs).

(** *** The archiver *)

Definition GOOGLE_PROJECT : string := "GOOGLE_PROJECT".
Definition datasetId : string := "statshub".

(** Control leaving the body of a [for ... range] loop. *)
Inductive flow (R : Type) :=
| Next
| Return (r : R).
Arguments Next {R}.
Arguments Return {R} r.

Fixpoint forRange {A R} (body : A -> M World (flow R)) (l : list A)
    : M World (flow R) :=
  match l with
  | [] => ret Next
  | x :: rest =>
      f <- body x ;;
      match f with
      | Next => forRange body rest
      | Return r => ret (Return r)
      end
  end.

Section Archiver.
(** [projectId = os.Getenv(GOOGLE_PROJECT)], read once at start-up. *)
Variable projectId : string.
Variable env : Env.

Definition timeNow : M World Z := call (Now env) ENow.

Definition timeSleep (d : Z) : M World unit := emit (ESleep d).

Definition logPrintf (line : string) : M World unit := emit (ELog line).

Definition statshubQueryDims (dims : list string)
    : M World (Go.error + list (string * DimStats)) :=
  call (fun k => QueryDims env k dims) (fun _ => EQueryDims dims).

Definition newStatsTable (project dataset dim : string)
    : M World (Go.error + StatsTable) :=
  call (fun k => NewStatsTable env k project dataset dim)
       (fun _ => ENewStatsTable project dataset dim).

Definition tableWriteStats (table : StatsTable) (stats : DimStats)
    (now : Z) : M World (option Go.error) :=
  call (fun k => WriteStats env k table stats now)
       (fun _ => EWriteStats table stats now).

(** The body of the range loop of [archiveToBigQuery]: both
    branches return. *)
Definition archiveEntry (interval : Z) (entry : string * DimStats)
    : M World (flow (option Go.error)) :=
  let '(dimName, dimStats) := entry in
  t <- newStatsTable projectId datasetId dimName ;;
  match t with
  | inl err => ret (Return (Some err))
  | inr statsTable =>
      now <- timeNow ;;
      r <- tableWriteStats statsTable dimStats (Truncate now interval) ;;
      ret (Return r)
  end.

Definition archiveToBigQuery (dim : string) (interval : Z)
    : M World (option Go.error) :=
  q <- statshubQueryDims [dim] ;;
  match q with
  | inl err => ret (Some err)
  | inr statsByDim =>
      f <- forRange (archiveEntry interval) statsByDim ;;
      match f with
      | Return r => ret r
      | Next => ret None
      end
  end.

(** One iteration of the loop of [archivePeriodically]. *)
Definition archiveCycle (dim : string) (interval : Z) : M World unit :=
  t0 <- timeNow ;;
  let nextInterval := Add (Truncate t0 interval) interval in
  t1 <- timeNow ;;
  let waitTime := Sub nextInterval t1 in
  timeSleep waitTime ;;;
  r <- archiveToBigQuery dim interval ;;
  match r with
  | Some err =>
      logPrintf ("Unable to archive dimension " ++ dim
                 ++ " to BigQuery: " ++ err)
  | None => ret tt
  end.

(** The world in which a cycle archives: two clock readings and the
    sleep until the next boundary. *)
Definition waited (i : Z) (w : World) : World :=
  let t0 := Now env (tick w) in
  let t1 := Now env (S (tick w)) in
  advance w 2 [ENow t0; ENow t1; ESleep (Sub (nextBoundary t0 i) t1)].

(** The goroutine of [archivePeriodically]: [for { ... }], observed
    for its first [n] iterations. The body holds no [break], no
    [return] and no call that ends the process. *)
Fixpoint archiveLoop (n : nat) (dim : string) (interval : Z)
    : M World unit :=
  match n with
  | O => ret tt
  | S n' => archiveCycle dim interval ;;; archiveLoop n' dim interval
  end.

End Archiver.

(** *** Start *)

(** A goroutine started by [archivePeriodically]. *)
Record Task := mkTask {
  taskDim : string;
  taskInterval : Z
}.

(** The process as [Start] sees it: the log and the goroutines spawned
    so far. *)
Record Process := mkProcess {
  plog : list string;
  goroutines : list Task
}.

Definition logLine (line : string) : M Process unit :=
  modify (fun p => mkProcess (plog p ++ [line]) (goroutines p)).

(** [archivePeriodically(dim, interval)]: [go func() { for {...} }()];
    the goroutine runs [archiveLoop]. *)
Definition archivePeriodically (dim : string) (interval : Z)
    : M Process unit :=
  modify (fun p => mkProcess (plog p) (goroutines p ++ [mkTask dim interval])).

Definition Start (projectId : string) : M Process unit :=
  if String.eqb projectId EmptyString then
    logLine "No GOOGLE_PROJECT environment variable set, not archiving to BigQuery"
  else
    logLine ("Archiving to BigQuery at " ++ projectId) ;;;
    archivePeriodically "fallback" (10 * Minute) ;;;
    archivePeriodically "country" (1 * Hour) ;;;
    archivePeriodically "user" (24 * Hour).

(** The events a run appends to the trace. *)
Definition events {A} (m : M World A) (w : World) : list event :=
  skipn (length (trace w)) (trace (exec m w)).

Definition isSleep (e : event) : bool :=
  match e with ESleep _ => true | _ => false end.
Definition isQuery (e : event) : bool :=
  match e with EQueryDims _ => true | _ => false end.
Definition isWrite (e : event) : bool :=
  match e with EWriteStats _ _ _ => true | _ => false end.
Definition isLog (e : event) : bool :=
  match e with ELog _ => true | _ => false end.

End Archive.

(** ** Sample requests, answers and clocks *)

Module Examples.

(** *** The ingestion side *)

Definition exUser : Statshub.User := Statshub.mkUser "user@example.com".

(** [hex(sha256("user@example.com523523"))] *)
Definition exHash : string :=
  "8326b02bc8388514c0386ae3b6cb950b5724046e4739baff84d88f8818009fbd".

(** The hash of the package comment, made for another account. *)
Definition otherHash : string :=
  "c78c666ec1016b8ed66b40bb46e0883020ff7c9d2f2010c0e2dbfbfc358888a2".

Definition exSubmission : Statshub.StatsSubmission :=
  Statshub.mkSubmission "ES"
    (Statshub.mkStats (<["myotherstat" := 50]> {["mystat" := 1]})
                      {["mygauge" := 78]}
                      {["online" := 1]}).

(** An authenticated caller, a reachable store. *)
Definition exEnv : Statshub.Env :=
  Statshub.mkEnv (fun _ => inr exUser)
                 (fun _ => inr exSubmission)
                 (fun _ => inr "{}")
                 None None None
                 (fun s _ => s)
                 (fun _ => "map[]").

Definition exRequest (method hash : string) : Statshub.Request :=
  Statshub.mkRequest method "/stats/523523" {["hash" := [hash]]} "stats".

Definition clicks (v : Z) : Statshub.Stats :=
  Statshub.mkStats {["clicks" := v]} ∅ ∅.

(** *** The archival side *)

Definition seconds (n : Z) : Z := n * Archive.Second.

(** Scheduled at 1000 s, awake 5 ms after the boundary at 1200 s. *)
Definition punctualClock (k : nat) : Z :=
  if (k <? 2)%nat then seconds 1000
  else seconds 1200 + 5 * Archive.Millisecond.

(** Scheduled at 1000 s, awake only at 1900 s: the sleep overran the
    boundary at 1200 s by more than one interval of ten minutes. *)
Definition lateClock (k : nat) : Z :=
  if (k <? 2)%nat then seconds 1000 else seconds 1900.

Definition fallbackStats : Archive.DimStats := {["fp-1" := clicks 3]}.
Definition strayStats : Archive.DimStats := {["fp-2" := clicks 7]}.

(** A query that answers with two entries, a warehouse that accepts
    every table and every write. *)
Definition exArchive (clock : nat -> Z) : Archive.Env :=
  Archive.mkEnv clock
    (fun _ _ => inr [("fallback", fallbackStats); ("stray", strayStats)])
    (fun _ project dataset dim => inr (Archive.mkTable project dataset dim))
    (fun _ _ _ _ => None).

(** The fallback dimension with two entities. *)
Definition twoEntities : Archive.DimStats :=
  <["fp-2" := clicks 7]> {["fp-1" := clicks 3]}.

(** A query that answers with the one dimension asked for. *)
Definition oneDimArchive (clock : nat -> Z) : Archive.Env :=
  Archive.mkEnv clock
    (fun _ _ => inr [("fallback", twoEntities)])
    (fun _ project dataset dim => inr (Archive.mkTable project dataset dim))
    (fun _ _ _ _ => None).

Definition exTable : Archive.StatsTable :=
  Archive.mkTable "lantern" "statshub" "fallback".

Definition startWorld : Archive.World := Archive.mkWorld 0 [].

Definition freshWorld (s : gmap (string * string) Statshub.Stats)
    : Statshub.World :=
  Statshub.mkWorld Statshub.freshWriter s [] [].

Definition tenMinutes : Z := 10 * Archive.Minute.

End Examples.

(** ** The goroutine of a dimension, with its control flow *)

Module Loop.
Import StateM Archive.

(** The body of the [for] of [archivePeriodically], with the way
  control leaves it: [Next] when it falls through to the next
  iteration, [Return] when it leaves the loop. Neither branch of the
  [if] on the error holds a [break] or a [return], and [log.Printf]
  does not end the process. *)
Definition archiveIteration (projectId : string) (env : Env) (dim : string)
    (interval : Z) : M World (flow unit) :=
  t0 <- timeNow env ;;
  let nextInterval := Add (Truncate t0 interval) interval in
  t1 <- timeNow env ;;
  let waitTime := Sub nextInterval t1 in
  timeSleep waitTime ;;;
  r <- archiveToBigQuery projectId env dim interval ;;
  match r with
  | Some err =>
      logPrintf ("Unable to archive dimension " ++ dim
                 ++ " to BigQuery: " ++ err) ;;;
      ret Next
  | None => ret Next
  end.

(** [for { body }], observed for at most [n] iterations: it stops as
  soon as the body leaves the loop. *)
Fixpoint forLoop {R} (n : nat) (body : M World (flow R))
    : M World (flow R) :=
  match n with
  | O => ret Next
  | S n' =>
      f <- body ;;
      match f with
      | Next => forLoop n' body
      | Return r => ret (Return r)
      end
  end.

(** [go func() { for { ... } }()] *)
Definition archiveGoroutine (projectId : string) (env : Env) (n : nat)
    (dim : string) (interval : Z) : M World (flow unit) :=
  forLoop n (archiveIteration projectId env dim interval).

End Loop.

(** ** Predicates on request texts *)

Module Text.

(** The byte [sep] occurs in [s]. *)
Fixpoint contains (sep : ascii) (s : string) : bool :=
  match s with
  | EmptyString => false
  | String c s' => Ascii.eqb c sep || contains sep s'
  end.

(** A digit of [hex.EncodeToString]: [0-9a-f]. *)
Definition isLowerHex (c : ascii) : bool :=
  let n := Z.of_N (N_of_ascii c) in
  ((48 <=? n) && (n <=? 57)) || ((97 <=? n) && (n <=? 102)).

Fixpoint allChars (p : ascii -> bool) (s : string) : bool :=
  match s with
  | EmptyString => true
  | String c s' => p c && allChars p s'
  end.

End Text.

(** ** Replies of the handler *)

Module Reply.
Import StateM Statshub.

(** The payload of every failure reply. *)
Definition failure (err : Go.error) : Payload :=
  PResponse (mkResponse false err).

(** The world after [write(w, code, p)] on a writer that has sent
  nothing yet and carries the header [hdr]. *)
Definition replied (env : Env) (hdr : gmap string string) (code : Z)
    (p : Payload) (st : gmap (string * string) Stats)
    (calls : list RedisCall) (l : list string) : World :=
  exec (write env code p) (mkWorld (mkWriter hdr None EmptyString) st calls l).

(** The header both method branches set before they answer. *)
Definition jsonHeader : gmap string string :=
  <["Content-Type" := "application/json"]> ∅.

Definition isPost (c : RedisCall) : bool :=
  match c with CPost _ _ => true | _ => false end.

End Reply.

Module MoreExamples.
Import Examples.

(** [exHash] in upper case. *)
Definition upperHash : string :=
  "8326B02BC8388514C0386AE3B6CB950B5724046E4739BAFF84D88F8818009FBD".

(** An account whose identity ends in digits. *)
Definition digitUser : Statshub.User := Statshub.mkUser "user@example.com52".

Definition envFor (u : Statshub.User) : Statshub.Env :=
  Statshub.mkEnv (fun _ => inr u)
                 (fun _ => inr exSubmission)
                 (fun _ => inr "{}")
                 None None None
                 (fun s _ => s)
                 (fun _ => "map[]").

(** Requests whose last segment is not a plain id. *)
Definition pathRequest (path : string) : Statshub.Request :=
  Statshub.mkRequest "GET" path {["hash" := [exHash]]} EmptyString.

(** Two cycles in a row: scheduled at 1000 s, the first write 5 ms
  after 1200 s, the second 5 ms after 1800 s. *)
Definition steadyClock (k : nat) : Z :=
  if (k <? 2)%nat then seconds 1000
  else if (k <? 8)%nat then seconds 1200 + 5 * Archive.Millisecond
  else seconds 1800 + 5 * Archive.Millisecond.

Definition idleProcess : Archive.Process := Archive.mkProcess [] [].

(** The store cannot be reached: every query fails. *)
Definition downArchive (clock : nat -> Z) : Archive.Env :=
  Archive.mkEnv clock
    (fun _ _ => inl "connection refused")
    (fun _ project dataset dim => inr (Archive.mkTable project dataset dim))
    (fun _ _ _ _ => None).

End MoreExamples.

(** * Properties of the ingestion handler *)

Section HandlerFacts.
Import StateM Statshub.

Variable env : Statshub.Env.

Lemma getUserInfo_malformed (r : Request) :
  badUserId r || badHash r = true ->
  exists err, getUserInfo env r = inl err.
Proof.
  unfold badUserId, badHash, getUserInfo, userIdSegment.
  destruct (LastIndex (Path r) "/" =? 0); [eauto|].
  destruct (Atoi _); [eauto|]. simpl.
  destruct (Query r !! "hash") as [[|h [|h' hs]]|]; eauto; discriminate.
Qed.

Lemma getUserInfo_wellformed (r : Request) :
  badUserId r || badHash r = false ->
  getUserInfo env r = inr (mkUserInfo (claimedId r) (claimedHash r)).
Proof.
  unfold badUserId, badHash, getUserInfo, claimedId, claimedHash,
    userIdSegment.
  destruct (LastIndex (Path r) "/" =? 0); [discriminate|].
  destruct (Atoi _); [discriminate|]. simpl.
  destruct (Query r !! "hash") as [[|h [|h' hs]]|];
    try discriminate; reflexivity.
Qed.

Lemma lastIndexFrom_lower (sep : ascii) (s : string) :
  forall i acc, acc < i -> acc <= lastIndexFrom i sep s acc.
Proof.
  induction s as [|c s IH]; intros i acc Hlt; simpl; [lia|].
  destruct (Ascii.eqb c sep).
  - specialize (IH (i + 1) i ltac:(lia)). lia.
  - apply IH. lia.
Qed.

(** Under [/stats/], where the handler is registered, the last slash is
  never the leading one: the user id is bad exactly when [Atoi] rejects
  the last path segment, the empty segment included. *)
Lemma badUserId_stats_path (r : Request) (rest : string) :
  Path r = "/stats/" ++ rest ->
  badUserId r =
  match Atoi (userIdSegment r) with inl _ => true | inr _ => false end.
Proof.
  intros Hp. unfold badUserId.
  assert (Hl : 6 <= LastIndex (Path r) "/").
  { rewrite Hp. unfold LastIndex. simpl.
    apply lastIndexFrom_lower. lia. }
  destruct (Z.eqb_spec (LastIndex (Path r) "/") 0); [lia | reflexivity].
Qed.

(** [write] and [fail] fix the status of a fresh writer and touch
    neither the store nor the Redis client. *)
Lemma write_fresh (code : Z) (data : Payload) (σ : World) :
  status (writer σ) = None ->
  let σ' := exec (write env code data) σ in
  status (writer σ') = Some code /\ store σ' = store σ
  /\ redisCalls σ' = redisCalls σ /\ header (writer σ') = header (writer σ).
Proof.
  intros Hs. unfold write, exec, bind, WriteHeader, onWriter, modify.
  simpl. rewrite Hs.
  destruct (Marshal env data); simpl; auto.
Qed.

Lemma fail_fresh (code : Z) (err : Go.error) (σ : World) :
  status (writer σ) = None ->
  let σ' := exec (fail env code err) σ in
  status (writer σ') = Some code /\ store σ' = store σ
  /\ redisCalls σ' = redisCalls σ /\ header (writer σ') = header (writer σ).
Proof. apply write_fresh. Qed.

(** [authenticateAgainst] only appends to the log. *)
Lemma authenticateAgainst_frame (ui : UserInfo) (r : Request) (σ : World) :
  let σ' := exec (authenticateAgainst env ui r) σ in
  writer σ' = writer σ /\ store σ' = store σ
  /\ redisCalls σ' = redisCalls σ.
Proof.
  unfold authenticateAgainst, exec, bind, logPrintf, modify, ret.
  destruct (CurrentOAuth env r); simpl; [auto|].
  destruct (negb _); simpl; auto.
Qed.

Lemma authenticateAgainst_result (ui : UserInfo) (r : Request) (σ : World) :
  eval (authenticateAgainst env ui r) σ =
  match CurrentOAuth env r with
  | inl err => (401, Some ("Not authenticated: " ++ err))
  | inr u =>
      if String.eqb (Hash ui) (expectedHash (Email u) (UserId ui))
      then (0, None)
      else (403, Some "Hash mismatch, authentication failure")
  end.
Proof.
  unfold authenticateAgainst, eval, bind, logPrintf, modify, ret.
  destruct (CurrentOAuth env r); simpl; [reflexivity|].
  rewrite (String.eqb_sym (Hash ui)).
  destruct (String.eqb _ _); reflexivity.
Qed.

Local Arguments String.eqb : simpl never.
Local Arguments expectedHash : simpl never.
Local Arguments String.append : simpl never.

(** The world in which the method is looked at: authentication left
    the writer, the store and the Redis client as they were. *)
Lemma statsHandler_unfold (r : Request) (s : Store) (l : list string) :
  serve env r s l =
  if badUserId r || badHash r then
    match getUserInfo env r with
    | inl err => exec (fail env 400 err) (mkWorld freshWriter s [] l)
    | inr _ => mkWorld freshWriter s [] l
    end
  else
    match CurrentOAuth env r with
    | inl err =>
        exec (fail env 401 ("Not authenticated: " ++ err))
             (mkWorld freshWriter s [] l)
    | inr u =>
        let line := "Expected hash: "
                    ++ expectedHash (Email u) (claimedId r) in
        let l' : list string := (l ++ [line])%list in
        if hashMatches u r then
          let ui := mkUserInfo (claimedId r) (claimedHash r) in
          let σ := mkWorld freshWriter s [] l' in
          if String.eqb (Method r) "POST" then
            exec (HeaderSet "Content-Type" "application/json" ;;;
                  res <- postStats env r ui ;;
                  match res with
                  | (statusCode, _, Some err) => fail env statusCode err
                  | (_, resp, None) => write env 200 resp
                  end) σ
          else if String.eqb (Method r) "GET" then
            exec (HeaderSet "Content-Type" "application/json" ;;;
                  res <- getStats env r ui ;;
                  match res with
                  | (statusCode, _, Some err) => fail env statusCode err
                  | (_, resp, None) => write env 200 resp
                  end) σ
          else
            mkWorld (mkWriter ∅ (Some 405) EmptyString) s []
                    (l' ++ [("Query: " ++ FormatValues env (Query r))%string])%list
        else
          exec (fail env 403 "Hash mismatch, authentication failure")
               (mkWorld freshWriter s [] l')
    end.
Proof.
  unfold serve, statsHandler.
  destruct (badUserId r || badHash r) eqn:Hbad.
  - destruct (getUserInfo_malformed r Hbad) as [err ->]. reflexivity.
  - rewrite (getUserInfo_wellformed r Hbad).
    unfold authenticateAgainst, hashMatches. simpl.
    destruct (CurrentOAuth env r) as [err|u]; [reflexivity|].
    unfold exec, bind, logPrintf, modify, ret. simpl.
    rewrite (String.eqb_sym (expectedHash _ _)).
    destruct (String.eqb (claimedHash r) _); simpl; [|reflexivity].
    rewrite (String.eqb_sym "POST"), (String.eqb_sym "GET").
    destruct (String.eqb (Method r) "POST"); [reflexivity|].
    destruct (String.eqb (Method r) "GET"); reflexivity.
Qed.

Ltac run_handler :=
  unfold exec, eval, bind, HeaderSet, postStats, getStats, postToRedis,
    connectToRedis, query, redisCall, fail, write, WriteHeader, Write,
    onWriter, logPrintf, modify, ret; simpl.

Ltac split_on t := destruct t; simpl; try reflexivity.

(** C7: the status line of every request to the stats endpoint is the
    one the interface description lists: 400 for a missing or
    non-integer user id, a missing or repeated hash parameter or an
    undecodable POST body, 401 for an unauthenticated caller, 403 for a
    hash mismatch, 500 when the backing store fails, 200 on success and
    405 for a method other than GET and POST; the conditions are read
    in the order malformed, unauthenticated, mismatch, method. *)
Theorem statsHandler_status (r : Request) (s : Store) :
  statusOf env r s = Some (specStatus env r).
Proof.
  unfold statusOf, specStatus, specMethodStatus.
  rewrite statsHandler_unfold.
  destruct (badUserId r || badHash r) eqn:Hbad.
  - destruct (getUserInfo_malformed r Hbad) as [err ->].
    run_handler. split_on (Marshal env (PResponse (mkResponse false err))).
  - destruct (CurrentOAuth env r) as [err|u].
    + run_handler. split_on (Marshal env (PResponse (mkResponse false
                               ("Not authenticated: " ++ err)))).
    + cbv zeta. destruct (hashMatches u r).
      * destruct (String.eqb (Method r) "POST").
        { run_handler. destruct (Decode env (Body r)) as [e|sub]; simpl.
          - split_on (Marshal env (PResponse (mkResponse false
                        ("Unable to decode request: " ++ e)))).
          - destruct (postErr env) as [e|]; simpl.
            + split_on (Marshal env (PResponse (mkResponse false
                          ("Unable to post stats: " ++ e)))).
            + split_on (Marshal env (PResponse (mkResponse true EmptyString))). }
        destruct (String.eqb (Method r) "GET"); [|reflexivity].
        run_handler. destruct (connectErr env) as [e|]; simpl.
        { split_on (Marshal env (PResponse (mkResponse false
                      ("Unable to connect to redis: " ++ e)))). }
        destruct (queryErr env) as [e|]; simpl.
        { split_on (Marshal env (PResponse (mkResponse false
                      ("Unable to query stats: " ++ e)))). }
        match goal with |- context [Marshal env ?p] =>
          split_on (Marshal env p) end.
      * run_handler.
        split_on (Marshal env (PResponse (mkResponse false
                    "Hash mismatch, authentication failure"))).
Qed.

(** C1: with [R] the authenticated caller, a request claiming id [U]
    with proof [H] is accepted exactly when [H] is the lower-case hex
    SHA-256 digest of the bytes of [R]'s identity followed by the
    decimal form of [U]; any other proof is answered 403; and the check
    leaves the response writer, the store and the Redis client alone. *)
Theorem authenticateAgainst_iff (r : Request) (U : Z) (H : string)
    (R : User) (σ : World) :
  CurrentOAuth env r = inr R ->
  let digest :=
    Hex.EncodeToString (Sha256.Sum (Go.bytes (Email R ++ Go.fmt_d U))) in
  let res := eval (authenticateAgainst env (mkUserInfo U H) r) σ in
  let σ' := exec (authenticateAgainst env (mkUserInfo U H) r) σ in
  (res = (0, None) <-> H = digest)
  /\ (H <> digest ->
      res = (403, Some "Hash mismatch, authentication failure"))
  /\ writer σ' = writer σ /\ store σ' = store σ
  /\ redisCalls σ' = redisCalls σ.
Proof.
  intros HR digest res σ'.
  assert (Hres : res = if String.eqb H digest then (0, None)
                       else (403, Some "Hash mismatch, authentication failure")).
  { unfold res. rewrite authenticateAgainst_result, HR. reflexivity. }
  split; [|split].
  - rewrite Hres. destruct (String.eqb_spec H digest) as [->|Hne].
    + split; reflexivity.
    + split; [discriminate | contradiction].
  - intros Hne. rewrite Hres.
    destruct (String.eqb_spec H digest); [contradiction | reflexivity].
  - apply authenticateAgainst_frame.
Qed.

(** C9: a request whose authentication fails leaves the aggregation
    store as it was and reaches no Redis call; the reply is the
    failure response (400 when the request was malformed before
    authentication was tried, else 401 or 403). *)
Theorem auth_failure_no_mutation (r : Request) (s : Store)
    (l : list string) :
  authFails env r = true ->
  let σ' := serve env r s l in
  store σ' = s /\ redisCalls σ' = []
  /\ status (writer σ') =
     Some (if badUserId r || badHash r then 400
           else match CurrentOAuth env r with
                | inl _ => 401
                | inr _ => 403
                end).
Proof.
  unfold authFails. intros Hfail. cbv zeta.
  rewrite statsHandler_unfold.
  destruct (badUserId r || badHash r) eqn:Hbad.
  - destruct (getUserInfo_malformed r Hbad) as [err ->].
    run_handler.
    destruct (Marshal env (PResponse (mkResponse false err))); simpl; auto.
  - destruct (CurrentOAuth env r) as [err|u].
    + run_handler.
      destruct (Marshal env (PResponse (mkResponse false
                  ("Not authenticated: " ++ err)))); simpl; auto.
    + cbv zeta. apply negb_true_iff in Hfail. rewrite Hfail.
      run_handler.
      destruct (Marshal env (PResponse (mkResponse false
                  "Hash mismatch, authentication failure"))); simpl; auto.
Qed.

(** C10: a request whose method is neither POST nor GET is parsed and
    authenticated before its method is looked at: it is answered 400
    when malformed, 401 or 403 when authentication fails, and 405 only
    when it is well-formed and authenticated; the 405 reply has no
    body and no content type. *)
Theorem unsupported_method (r : Request) (s : Store) (l : list string) :
  Method r <> "POST" -> Method r <> "GET" ->
  let w := writer (serve env r s l) in
  status w =
    Some (if badUserId r || badHash r then 400
          else match CurrentOAuth env r with
               | inl _ => 401
               | inr u => if hashMatches u r then 405 else 403
               end)
  /\ (status w = Some 405 <->
      badUserId r || badHash r = false
      /\ exists u, CurrentOAuth env r = inr u /\ hashMatches u r = true)
  /\ (status w = Some 405 -> body w = EmptyString /\ header w = ∅).
Proof.
  intros HP HG. cbv zeta.
  apply String.eqb_neq in HP, HG.
  rewrite statsHandler_unfold.
  destruct (badUserId r || badHash r) eqn:Hbad.
  - destruct (getUserInfo_malformed r Hbad) as [err ->].
    run_handler.
    destruct (Marshal env (PResponse (mkResponse false err))); simpl;
      (split; [reflexivity|split; [split|]]);
      try discriminate; intros [? _]; discriminate.
  - destruct (CurrentOAuth env r) as [err|u].
    + run_handler.
      destruct (Marshal env (PResponse (mkResponse false
                  ("Not authenticated: " ++ err)))); simpl;
        (split; [reflexivity|split; [split|]]);
        try discriminate; intros [_ [u [Hu _]]]; discriminate.
    + cbv zeta. destruct (hashMatches u r) eqn:Hm.
      * rewrite HP, HG. simpl.
        split; [reflexivity|split; [split|]]; eauto.
      * run_handler.
        destruct (Marshal env (PResponse (mkResponse false
                    "Hash mismatch, authentication failure"))); simpl;
          (split; [reflexivity|split; [split|]]);
          try discriminate; intros [_ [u' [Hu Hm']]];
          injection Hu as <-; congruence.
Qed.

End HandlerFacts.

(** * Properties of the counter merge *)

Section Int64Facts.
Import Go.

Lemma wrap64_range (x : Z) : inInt64 (wrap64 x).
Proof.
  unfold inInt64, wrap64, minInt64, maxInt64.
  pose proof (Z.mod_pos_bound (x + 2 ^ 63) (2 ^ 64) ltac:(lia)). lia.
Qed.

Lemma wrap64_id (x : Z) : inInt64 x -> wrap64 x = x.
Proof.
  unfold inInt64, wrap64, minInt64, maxInt64. intros Hx.
  rewrite Z.mod_small; lia.
Qed.

Lemma wrap64_add_l (a b : Z) : wrap64 (wrap64 a + b) = wrap64 (a + b).
Proof.
  unfold wrap64.
  replace ((a + 2 ^ 63) mod 2 ^ 64 - 2 ^ 63 + b + 2 ^ 63)
    with ((a + 2 ^ 63) mod 2 ^ 64 + b) by lia.
  rewrite Zplus_mod_idemp_l. f_equal. f_equal. lia.
Qed.

End Int64Facts.

Section CounterFacts.
Import Go Statshub.

Lemma mergeCounter_lookup (existing incoming : gmap string Z)
    (name : string) :
  mergeCounter existing incoming !! name =
  match incoming !! name with
  | Some v => Some (add64 (default 0 (existing !! name)) v)
  | None => existing !! name
  end.
Proof.
  unfold mergeCounter. revert name.
  apply (map_fold_weak_ind
           (fun (r m : gmap string Z) => forall name,
              r !! name = match m !! name with
                          | Some v => Some (add64 (default 0 (existing !! name)) v)
                          | None => existing !! name
                          end)).
  - intros name. rewrite lookup_empty. reflexivity.
  - intros i x m r Hi IH name.
    destruct (decide (i = name)) as [->|Hne].
    + rewrite !lookup_insert_eq. rewrite IH, Hi. reflexivity.
    + rewrite !lookup_insert_ne by done. apply IH.
Qed.

(** One submission: the value stored for a stat name grows by the
    submitted value, in [int64] arithmetic; a name the submission does
    not carry keeps its value. *)
Lemma submit_counter (userId : Z) (sub : Stats) (s : Store)
    (name : string) :
  storedCounter (submit userId sub s) userId name =
  match Counter sub !! name with
  | Some v => add64 (storedCounter s userId name) v
  | None => storedCounter s userId name
  end.
Proof.
  unfold storedCounter, submit.
  rewrite lookup_insert_eq. simpl.
  rewrite mergeCounter_lookup.
  destruct (Counter sub !! name); reflexivity.
Qed.

Lemma submit_counter_range (userId : Z) (sub : Stats) (s : Store)
    (name : string) :
  inInt64 (storedCounter s userId name) ->
  inInt64 (storedCounter (submit userId sub s) userId name).
Proof.
  intros Hr. rewrite submit_counter.
  destruct (Counter sub !! name); [apply wrap64_range | exact Hr].
Qed.

Lemma submitAll_counter (userId : Z) (name : string) (subs : list Stats) :
  forall s : Store,
    inInt64 (storedCounter s userId name) ->
    storedCounter (submitAll userId subs s) userId name =
    wrap64 (storedCounter s userId name + sumSubmitted name subs).
Proof.
  induction subs as [|sub subs IH]; intros s Hr.
  - unfold sumSubmitted. simpl. rewrite Z.add_0_r, wrap64_id; done.
  - change (submitAll userId (sub :: subs) s)
      with (submitAll userId subs (submit userId sub s)).
    rewrite IH by (by apply submit_counter_range).
    rewrite submit_counter.
    change (sumSubmitted name (sub :: subs))
      with (submitted name sub + sumSubmitted name subs).
    unfold submitted.
    destruct (Counter sub !! name) as [v|]; simpl.
    + unfold add64. rewrite wrap64_add_l. f_equal. lia.
    + f_equal.
Qed.

Lemma sumSubmitted_perm (name : string) (subs subs' : list Stats) :
  Permutation subs subs' ->
  sumSubmitted name subs = sumSubmitted name subs'.
Proof.
  unfold sumSubmitted.
  induction 1; simpl; lia.
Qed.

Lemma submitAll_app (userId : Z) (xs ys : list Stats) (s : Store) :
  submitAll userId (xs ++ ys) s = submitAll userId ys (submitAll userId xs s).
Proof. unfold submitAll. apply fold_left_app. Qed.

(** C2, as the code has it: after a sequence of counter submissions for
    one entity the value stored for a stat name is the value stored
    before plus the sum of the submitted values, reduced to [int64] by
    wrap-around (so it is the exact sum whenever that sum is an
    [int64]); the outcome does not depend on the order of the
    submissions nor on how the sequence is split into groups. *)
Theorem counter_sum_wraps (s : Store) (userId : Z) (name : string)
    (subs subs' : list Stats) :
  inInt64 (storedCounter s userId name) ->
  Permutation subs subs' ->
  storedCounter (submitAll userId subs s) userId name =
    wrap64 (storedCounter s userId name + sumSubmitted name subs)
  /\ (inInt64 (storedCounter s userId name + sumSubmitted name subs) ->
      storedCounter (submitAll userId subs s) userId name =
        storedCounter s userId name + sumSubmitted name subs)
  /\ storedCounter (submitAll userId subs' s) userId name =
     storedCounter (submitAll userId subs s) userId name
  /\ (forall xs ys, subs = (xs ++ ys)%list ->
      submitAll userId subs s = submitAll userId ys (submitAll userId xs s)).
Proof.
  intros Hr Hp. repeat split.
  - by apply submitAll_counter.
  - intros Hs. rewrite submitAll_counter by done. by apply wrap64_id.
  - rewrite !submitAll_counter by done.
    by rewrite (sumSubmitted_perm name subs subs').
  - intros xs ys ->. apply submitAll_app.
Qed.

End CounterFacts.

(** * Properties of the clock arithmetic *)

Section TimeFacts.
Import Archive.

Lemma Truncate_pos (t i : Z) : 0 < i -> Truncate t i = t - t mod i.
Proof.
  intros Hi. unfold Truncate.
  destruct (Z.leb_spec i 0); [lia | reflexivity].
Qed.

Lemma Truncate_bounds (t i : Z) :
  0 < i -> Truncate t i <= t < Truncate t i + i.
Proof.
  intros Hi. rewrite Truncate_pos by done.
  pose proof (Z.mod_pos_bound t i Hi). lia.
Qed.

Lemma Truncate_multiple (t i : Z) : 0 < i -> Truncate t i = i * (t / i).
Proof.
  intros Hi. rewrite Truncate_pos by done.
  pose proof (Z.div_mod t i ltac:(lia)). lia.
Qed.

(** An instant of the window that starts at a multiple of [i] truncates
    to that multiple, and only such an instant does. *)
Lemma Truncate_window (t i q : Z) :
  0 < i -> (Truncate t i = i * q <-> i * q <= t < i * q + i).
Proof.
  intros Hi. split.
  - intros <-. by apply Truncate_bounds.
  - intros Hw. rewrite Truncate_multiple by done. f_equal.
    symmetry. apply (Z.div_unique t i q (t - i * q)); lia.
Qed.

Lemma nextBoundary_multiple (t i : Z) :
  0 < i -> nextBoundary t i = i * (t / i + 1).
Proof.
  intros Hi. unfold nextBoundary, Add.
  rewrite Truncate_multiple by done. lia.
Qed.

(** For an interval that divides a day (10 minutes, 1 hour, 24 hours),
  multiples counted from the zero time are multiples counted from the
  Unix epoch as well. *)
Lemma nextBoundary_unix (t i : Z) :
  0 < i -> (i | 24 * Hour) -> (i | nextBoundary t i - unixEpoch).
Proof.
  intros Hi Hday.
  apply Z.divide_sub_r.
  - rewrite nextBoundary_multiple by done. apply Z.divide_factor_l.
  - apply (Z.divide_trans _ (24 * Hour)); [done|].
    exists 719162. reflexivity.
Qed.

End TimeFacts.

(** * Properties of the archiver *)

Section ArchiverFacts.
Import StateM Archive.

Variable projectId : string.
Variable env : Archive.Env.

Local Arguments String.append : simpl never.

Lemma events_advance {A} (m : M World A) (w : World) (n : nat)
    (evs : list event) :
  exec m w = advance w n evs -> events m w = evs.
Proof.
  intros Hm. unfold events. rewrite Hm. simpl.
  apply drop_app_length.
Qed.

Ltac run_archiver :=
  unfold archiveToBigQuery, archiveEntry, statshubQueryDims, newStatsTable,
    tableWriteStats, timeNow, timeSleep, logPrintf, call, emit, modify,
    bind, ret, advance; simpl.

(** One entry of the query result: the table handle, then the write. *)
Lemma archiveEntry_run (i : Z) (dimName : string) (dimStats : DimStats)
    (w : World) :
  archiveEntry projectId env i (dimName, dimStats) w =
  let k := tick w in
  match NewStatsTable env k projectId datasetId dimName with
  | inl err =>
      (Return (Some err),
       advance w 1 [ENewStatsTable projectId datasetId dimName])
  | inr table =>
      let now := Now env (S k) in
      (Return (WriteStats env (S (S k)) table dimStats (Truncate now i)),
       advance w 3 [ENewStatsTable projectId datasetId dimName;
                    ENow now;
                    EWriteStats table dimStats (Truncate now i)])
  end.
Proof.
  run_archiver.
  destruct (NewStatsTable env (tick w) projectId datasetId dimName);
    simpl; [reflexivity|].
  rewrite <- !app_assoc. reflexivity.
Qed.

(** The body of the range loop returns on its first entry: the other
    entries are never looked at. *)
Lemma forRange_first (i : Z) (e : string * DimStats)
    (rest : list (string * DimStats)) (w : World) :
  forRange (archiveEntry projectId env i) (e :: rest) w =
  archiveEntry projectId env i e w.
Proof.
  destruct e as [dimName dimStats].
  change (forRange (archiveEntry projectId env i)
            ((dimName, dimStats) :: rest) w)
    with (let '(f, w') := archiveEntry projectId env i (dimName, dimStats) w in
          match f with
          | Next => forRange (archiveEntry projectId env i) rest
          | Return r => ret (Return r)
          end w').
  rewrite archiveEntry_run. cbv zeta.
  destruct (NewStatsTable env (tick w) projectId datasetId dimName);
    reflexivity.
Qed.

(** [archiveToBigQuery] run from the oracle's answers. *)
Lemma archiveToBigQuery_run (dim : string) (i : Z) (w : World) :
  archiveToBigQuery projectId env dim i w =
  let k := tick w in
  match QueryDims env k [dim] with
  | inl err => (Some err, advance w 1 [EQueryDims [dim]])
  | inr [] => (None, advance w 1 [EQueryDims [dim]])
  | inr ((dimName, dimStats) :: _) =>
      match NewStatsTable env (S k) projectId datasetId dimName with
      | inl err =>
          (Some err,
           advance w 2 [EQueryDims [dim];
                        ENewStatsTable projectId datasetId dimName])
      | inr table =>
          let now := Now env (S (S k)) in
          (WriteStats env (S (S (S k))) table dimStats (Truncate now i),
           advance w 4 [EQueryDims [dim];
                        ENewStatsTable projectId datasetId dimName;
                        ENow now;
                        EWriteStats table dimStats (Truncate now i)])
      end
  end.
Proof.
  unfold archiveToBigQuery, statshubQueryDims, call, bind at 1. simpl.
  destruct (QueryDims env (tick w) [dim]) as [err|[|[dimName dimStats] rest]];
    try reflexivity.
  unfold bind. rewrite forRange_first, archiveEntry_run. simpl.
  destruct (NewStatsTable env (S (tick w)) projectId datasetId dimName);
    unfold advance, ret; simpl; rewrite <- !app_assoc; reflexivity.
Qed.

(** Whatever the answers, [archiveToBigQuery] returns, having queried
    once and written at most once. *)
Lemma archiveToBigQuery_events (dim : string) (i : Z) (w : World) :
  exists n evs,
    exec (archiveToBigQuery projectId env dim i) w = advance w n evs
    /\ filter isSleep evs = []
    /\ filter isLog evs = []
    /\ filter isQuery evs = [EQueryDims [dim]]
    /\ (length (filter isWrite evs) <= 1)%nat.
Proof.
  unfold exec. rewrite archiveToBigQuery_run. cbv zeta.
  destruct (QueryDims env (tick w) [dim]) as [err|[|[dimName dimStats] rest]].
  - exists 1%nat, [EQueryDims [dim]]. simpl. repeat split; auto.
  - exists 1%nat, [EQueryDims [dim]]. simpl. repeat split; auto.
  - destruct (NewStatsTable env (S (tick w)) projectId datasetId dimName)
      as [err|table].
    + eexists 2%nat, _. split; [reflexivity|]. simpl. repeat split; auto.
    + eexists 4%nat, _. split; [reflexivity|]. simpl. repeat split; auto.
Qed.

Lemma advance_advance (w : World) (n m : nat) (evs evs' : list event) :
  advance (advance w n evs) m evs' = advance w (m + n) (evs ++ evs').
Proof.
  unfold advance. simpl. f_equal; [lia | by rewrite app_assoc].
Qed.

Lemma archiveCycle_run (dim : string) (i : Z) (w : World) :
  exec (archiveCycle projectId env dim i) w =
  let w2 := exec (archiveToBigQuery projectId env dim i) (waited env i w) in
  match eval (archiveToBigQuery projectId env dim i) (waited env i w) with
  | Some err =>
      advance w2 0 [ELog ("Unable to archive dimension " ++ dim
                          ++ " to BigQuery: " ++ err)]
  | None => w2
  end.
Proof.
  unfold archiveCycle, waited, exec, eval, nextBoundary.
  unfold timeNow, timeSleep, logPrintf, call, emit, modify, bind, ret,
    advance. simpl.
  rewrite <- !app_assoc. simpl.
  destruct (archiveToBigQuery projectId env dim i _) as [[err|] w2];
    reflexivity.
Qed.

(** A cycle, whatever the answers: wait, archive once, log a failure. *)
Lemma archiveCycle_events (dim : string) (i : Z) (w : World) :
  let t0 := Now env (tick w) in
  let t1 := Now env (S (tick w)) in
  let cyc := events (archiveCycle projectId env dim i) w in
  cyc =
    ([ENow t0; ENow t1; ESleep (Sub (nextBoundary t0 i) t1)]
     ++ events (archiveToBigQuery projectId env dim i) (waited env i w)
     ++ match eval (archiveToBigQuery projectId env dim i) (waited env i w) with
        | Some err => [ELog ("Unable to archive dimension " ++ dim
                             ++ " to BigQuery: " ++ err)]
        | None => []
        end)%list
  /\ exists n, exec (archiveCycle projectId env dim i) w = advance w n cyc.
Proof.
  cbv zeta.
  destruct (archiveToBigQuery_events dim i (waited env i w))
    as (n & evs & Hexec & _).
  rewrite (events_advance _ _ _ _ Hexec).
  set (tail := match eval (archiveToBigQuery projectId env dim i)
                       (waited env i w) with
               | Some err => [ELog ("Unable to archive dimension " ++ dim
                                    ++ " to BigQuery: " ++ err)]
               | None => []
               end).
  assert (Hrun : exec (archiveCycle projectId env dim i) w =
                 advance w (n + 2)
                   ([ENow (Now env (tick w)); ENow (Now env (S (tick w)));
                     ESleep (Sub (nextBoundary (Now env (tick w)) i)
                                 (Now env (S (tick w))))]
                    ++ evs ++ tail)%list).
  { rewrite archiveCycle_run. cbv zeta. rewrite Hexec. unfold tail.
    destruct (eval (archiveToBigQuery projectId env dim i) (waited env i w)).
    - unfold waited. rewrite !advance_advance.
      f_equal; rewrite <- ?app_assoc; done.
    - unfold waited. rewrite advance_advance.
      f_equal; rewrite ?app_nil_r; done. }
  rewrite (events_advance _ _ _ _ Hrun). split; [reflexivity|].
  by exists (n + 2)%nat.
Qed.

Lemma archiveLoop_snoc (n : nat) (dim : string) (i : Z) (w : World) :
  exec (archiveLoop projectId env (S n) dim i) w =
  exec (archiveCycle projectId env dim i)
       (exec (archiveLoop projectId env n dim i) w).
Proof.
  revert w. induction n as [|n IH]; intros w.
  - unfold exec, bind, ret. simpl. unfold bind.
    by destruct (archiveCycle projectId env dim i w).
  - change (exec (archiveLoop projectId env (S (S n)) dim i) w)
      with (snd (let '(_, w') := archiveCycle projectId env dim i w in
                 archiveLoop projectId env (S n) dim i w')).
    change (exec (archiveLoop projectId env (S n) dim i) w)
      with (snd (let '(_, w') := archiveCycle projectId env dim i w in
                 archiveLoop projectId env n dim i w')).
    destruct (archiveCycle projectId env dim i w) as [u w'].
    apply IH.
Qed.

Lemma archiveLoop_events (n : nat) (dim : string) (i : Z) (w : World) :
  exists k evs,
    exec (archiveLoop projectId env n dim i) w = advance w k evs
    /\ length (filter isSleep evs) = n.
Proof.
  induction n as [|n (k & evs & Hn & Hs)].
  - exists 0%nat, []. split; [|reflexivity].
    unfold exec, advance. simpl. rewrite app_nil_r. by destruct w.
  - rewrite archiveLoop_snoc.
    destruct (archiveCycle_events dim i (advance w k evs)) as [Hc [m Hm]].
    destruct (archiveToBigQuery_events dim i (waited env i (advance w k evs)))
      as (n' & evs' & Hexec & Hsl & _).
    rewrite Hn, Hm, advance_advance.
    eexists _, _. split; [reflexivity|].
    rewrite filter_app, length_app, Hs, Hc.
    rewrite (events_advance _ _ _ _ Hexec).
    simpl. rewrite filter_app, Hsl. simpl.
    destruct (eval _ _); simpl; lia.
Qed.

Lemma archiveToBigQuery_write (dim : string) (i : Z) (w : World)
    (table : StatsTable) (stats : DimStats) (ts : Z) :
  In (EWriteStats table stats ts)
     (events (archiveToBigQuery projectId env dim i) w) ->
  ts = Truncate (Now env (2 + tick w)) i
  /\ exists dimName rest,
      QueryDims env (tick w) [dim] = inr ((dimName, stats) :: rest)
      /\ NewStatsTable env (S (tick w)) projectId datasetId dimName
         = inr table.
Proof.
  pose proof (archiveToBigQuery_run dim i w) as Hrun. cbv zeta in Hrun.
  destruct (QueryDims env (tick w) [dim]) as [err|[|[dimName dimStats] rest]].
  - rewrite (events_advance _ w 1 [EQueryDims [dim]]) by (unfold exec; by rewrite Hrun).
    simpl. intros [H|[]]; discriminate.
  - rewrite (events_advance _ w 1 [EQueryDims [dim]]) by (unfold exec; by rewrite Hrun).
    simpl. intros [H|[]]; discriminate.
  - destruct (NewStatsTable env (S (tick w)) projectId datasetId dimName)
      as [err|tbl] eqn:Htbl.
    + rewrite (events_advance _ w 2
                 [EQueryDims [dim]; ENewStatsTable projectId datasetId dimName])
        by (unfold exec; by rewrite Hrun).
      simpl. intros [H|[H|[]]]; discriminate.
    + rewrite (events_advance _ w 4
                 [EQueryDims [dim]; ENewStatsTable projectId datasetId dimName;
                  ENow (Now env (S (S (tick w))));
                  EWriteStats tbl dimStats
                    (Truncate (Now env (S (S (tick w)))) i)])
        by (unfold exec; by rewrite Hrun).
      simpl. intros [H|[H|[H|[H|[]]]]]; try discriminate.
      injection H as -> -> ->. split; [reflexivity|].
      exists dimName, rest. by rewrite Htbl.
Qed.

(** C3, as the code has it: the timestamp handed to the writer is
    [truncate(now, i)], [now] being the clock read when the write is
    issued: the aligned boundary at or before that instant, never the
    one after it. It is the boundary [truncate(t, i) + i] which the
    cycle computed when it was scheduled at [t] exactly when the write
    is issued less than one interval after that boundary. *)
Theorem snapshot_timestamp (dim : string) (i : Z) (w : World)
    (table : StatsTable) (stats : DimStats) (ts : Z) :
  0 < i ->
  In (EWriteStats table stats ts)
     (events (archiveCycle projectId env dim i) w) ->
  let scheduled := Now env (tick w) in
  let fired := Now env (4 + tick w) in
  ts = Truncate fired i
  /\ ts <= fired < ts + i
  /\ ts <> Truncate fired i + i
  /\ (ts = nextBoundary scheduled i <->
      nextBoundary scheduled i <= fired < nextBoundary scheduled i + i).
Proof.
  intros Hi Hin scheduled fired.
  destruct (archiveCycle_events dim i w) as [Hc _]. cbv zeta in Hc.
  rewrite Hc in Hin. clear Hc.
  apply in_app_or in Hin as [Hin|Hin].
  { simpl in Hin. destruct Hin as [H|[H|[H|[]]]]; discriminate. }
  apply in_app_or in Hin as [Hin|Hin].
  2:{ destruct (eval _ _); simpl in Hin; [destruct Hin as [H|[]]|destruct Hin].
      discriminate. }
  apply archiveToBigQuery_write in Hin as [Hts _].
  change (2 + tick (waited env i w))%nat with (4 + tick w)%nat in Hts.
  fold fired in Hts. subst ts.
  pose proof (Truncate_bounds fired i Hi) as Hb.
  repeat split; try lia.
  rewrite nextBoundary_multiple by done.
  intros Hw. by apply Truncate_window.
Qed.

(** C4, as the code has it: the loop of [archiveToBigQuery] ranges over
  the entries of the query result, which are keyed by dimension name
  and carry each the whole entity-to-stats mapping of a dimension, and
  it returns from its first iteration. The result of the cycle and
  everything it does are those of writing the first processed entry
  alone (its table handle, then its write); that one write hands over
  the whole mapping of the entry, every entity in it; no write is
  issued for the remaining entries. *)
Theorem archive_first_entry_only (dim : string) (i : Z) (w : World)
    (e : string * DimStats) (rest : list (string * DimStats)) :
  QueryDims env (tick w) [dim] = inr (e :: rest) ->
  let queried := advance w 1 [EQueryDims [dim]] in
  let evs := events (archiveToBigQuery projectId env dim i) w in
  eval (archiveToBigQuery projectId env dim i) w =
    match eval (archiveEntry projectId env i e) queried with
    | Return r => r
    | Next => None
    end
  /\ exec (archiveToBigQuery projectId env dim i) w =
     exec (archiveEntry projectId env i e) queried
  /\ (length (filter isWrite evs) <= 1)%nat
  /\ (forall table stats ts,
        In (EWriteStats table stats ts) evs -> stats = snd e)
  /\ (forall project dataset name,
        In (ENewStatsTable project dataset name) evs -> name = fst e)
  /\ (forall table,
        NewStatsTable env (S (tick w)) projectId datasetId (fst e) = inr table ->
        filter isWrite evs =
        [EWriteStats table (snd e) (Truncate (Now env (2 + tick w)) i)]).
Proof.
  intros Hq queried evs.
  assert (Hrun : archiveToBigQuery projectId env dim i w =
                 let '(f, w') := archiveEntry projectId env i e queried in
                 (match f with Return r => r | Next => None end, w')).
  { unfold archiveToBigQuery, statshubQueryDims, call, bind at 1.
    simpl. rewrite Hq. unfold bind. rewrite forRange_first.
    change (mkWorld (S (tick w)) (trace w ++ [EQueryDims [dim]]))
      with queried.
    destruct (archiveEntry projectId env i e queried) as [[|r] w'];
      reflexivity. }
  split; [|split; [|split; [|split; [|split]]]].
  - unfold eval. rewrite Hrun.
    by destruct (archiveEntry projectId env i e queried) as [[|r] w'].
  - unfold exec. rewrite Hrun.
    by destruct (archiveEntry projectId env i e queried) as [[|r] w'].
  - destruct (archiveToBigQuery_events dim i w) as (n & l & Hl & _ & _ & _ & Hw).
    unfold evs. by rewrite (events_advance _ _ _ _ Hl).
  - intros table stats ts Hin.
    apply archiveToBigQuery_write in Hin as [_ (dimName & rest' & Hq' & _)].
    rewrite Hq in Hq'. by injection Hq' as -> _.
  - intros project dataset name. unfold evs.
    pose proof (archiveToBigQuery_run dim i w) as Hr. cbv zeta in Hr.
    rewrite Hq in Hr. destruct e as [dimName dimStats].
    destruct (NewStatsTable env (S (tick w)) projectId datasetId dimName).
    + rewrite (events_advance _ w 2
                 [EQueryDims [dim]; ENewStatsTable projectId datasetId dimName])
        by (unfold exec; by rewrite Hr).
      simpl. intros [H|[H|[]]]; try discriminate. by injection H as _ _ <-.
    + erewrite events_advance by (unfold exec; by rewrite Hr).
      simpl. intros [H|[H|[H|[H|[]]]]]; try discriminate.
      by injection H as _ _ <-.
  - intros table Htable. unfold evs.
    pose proof (archiveToBigQuery_run dim i w) as Hr. cbv zeta in Hr.
    rewrite Hq in Hr. destruct e as [dimName dimStats]. simpl in Htable.
    rewrite Htable in Hr.
    erewrite events_advance by (unfold exec; by rewrite Hr).
    reflexivity.
Qed.

Lemma archiveCycle_sleep (dim : string) (i : Z) (w : World) :
  filter isSleep (events (archiveCycle projectId env dim i) w) =
  [ESleep (Sub (nextBoundary (Now env (tick w)) i) (Now env (S (tick w))))].
Proof.
  destruct (archiveCycle_events dim i w) as [-> _].
  destruct (archiveToBigQuery_events dim i (waited env i w))
    as (n & evs & Hexec & Hsl & _).
  rewrite (events_advance _ _ _ _ Hexec).
  rewrite !filter_app, Hsl.
  by destruct (eval _ _).
Qed.

Lemma nextBoundary_unix_iff (t i : Z) :
  0 < i -> ((i | nextBoundary t i - unixEpoch) <-> (i | unixEpoch)).
Proof.
  intros Hi. rewrite nextBoundary_multiple by done. split.
  - intros Hd.
    replace unixEpoch
      with (i * (t / i + 1) - (i * (t / i + 1) - unixEpoch)) by lia.
    apply Z.divide_sub_r; [apply Z.divide_factor_l | exact Hd].
  - intros Hd. apply Z.divide_sub_r; [apply Z.divide_factor_l | exact Hd].
Qed.

(** C5, as the code has it: for a positive interval, the boundary the
  scheduler waits for, [nextBoundary t i = truncate(t, i) + i], lies
  strictly after [t] (and at most one interval after it), is an exact
  multiple of [i] counted from the zero time of the clock arithmetic
  (January 1 of year 1, UTC), and is the same at every instant of the
  window [t] lies in, so that computing it again at [t] gives it again;
  each cycle sleeps for that boundary minus the clock. Counted from
  the Unix epoch the boundary is a multiple of [i] exactly when [i]
  divides the distance between the two origins, as every interval
  that divides a day does. *)
Theorem nextBoundary_aligned (t i : Z) :
  0 < i ->
  nextBoundary t i = Truncate t i + i
  /\ t < nextBoundary t i <= t + i
  /\ nextBoundary t i mod i = 0
  /\ (exists k, nextBoundary t i = k * i)
  /\ Truncate (nextBoundary t i) i = nextBoundary t i
  /\ (forall t', Truncate t i <= t' < nextBoundary t i ->
      nextBoundary t' i = nextBoundary t i)
  /\ (forall dim w,
      filter isSleep (events (archiveCycle projectId env dim i) w)
      = [ESleep (Sub (nextBoundary (Now env (tick w)) i)
                     (Now env (S (tick w))))])
  /\ ((i | nextBoundary t i - unixEpoch) <-> (i | unixEpoch))
  /\ ((i | 24 * Hour) -> (i | nextBoundary t i - unixEpoch)).
Proof.
  intros Hi.
  pose proof (Truncate_bounds t i Hi) as Hb.
  pose proof (nextBoundary_multiple t i Hi) as Hm.
  assert (Hdef : nextBoundary t i = Truncate t i + i) by reflexivity.
  split; [exact Hdef|]. split; [lia|].
  split; [|split; [|split; [|split; [|split; [|split]]]]].
  - rewrite Hm, Z.mul_comm. apply Z_mod_mult.
  - exists (t / i + 1). lia.
  - rewrite Hm. apply Truncate_window; [done | lia].
  - intros t' Ht'. unfold nextBoundary, Add. f_equal.
    rewrite (Truncate_multiple t i Hi).
    apply Truncate_window; [done|].
    rewrite <- (Truncate_multiple t i Hi). lia.
  - intros dim w. apply archiveCycle_sleep.
  - by apply nextBoundary_unix_iff.
  - by apply nextBoundary_unix.
Qed.

End ArchiverFacts.

(** * The goroutine of a dimension *)

Section LoopFacts.
Import StateM Archive Loop.

Variable projectId : string.
Variable env : Archive.Env.

Local Arguments String.append : simpl never.

(** An iteration is a cycle that falls through. *)
Lemma archiveIteration_run (dim : string) (i : Z) (w : World) :
  archiveIteration projectId env dim i w
  = (Next, exec (archiveCycle projectId env dim i) w).
Proof.
  unfold archiveIteration, archiveCycle, exec, bind, timeNow, timeSleep,
    logPrintf, call, emit, modify, ret. simpl.
  destruct (archiveToBigQuery projectId env dim i _) as [[err|] w2];
    reflexivity.
Qed.

Lemma archiveGoroutine_run (n : nat) (dim : string) (i : Z) :
  forall w,
    archiveGoroutine projectId env n dim i w
    = (Next, exec (archiveLoop projectId env n dim i) w).
Proof.
  unfold archiveGoroutine.
  induction n as [|n IH]; intros w; [reflexivity|].
  cbn [forLoop]. unfold bind at 1. rewrite archiveIteration_run, IH.
  f_equal. unfold exec. cbn [archiveLoop]. unfold bind.
  by destruct (archiveCycle projectId env dim i w).
Qed.

(** A cycle from the answers of the collaborators. *)
Lemma archiveCycle_trace (dim : string) (i : Z) (w : World) :
  let k := tick w in
  let t0 := Now env k in
  let t1 := Now env (S k) in
  let failed (err : Go.error) :=
    [ELog ("Unable to archive dimension " ++ dim
           ++ " to BigQuery: " ++ err)] in
  events (archiveCycle projectId env dim i) w =
  ([ENow t0; ENow t1; ESleep (Sub (nextBoundary t0 i) t1);
    EQueryDims [dim]]
   ++ match QueryDims env (2 + k) [dim] with
      | inl err => failed err
      | inr [] => []
      | inr ((name, stats) :: _) =>
          ENewStatsTable projectId datasetId name
          :: match NewStatsTable env (3 + k) projectId datasetId name with
             | inl err => failed err
             | inr table =>
                 let now := Now env (4 + k) in
                 [ENow now; EWriteStats table stats (Truncate now i)]
                 ++ match WriteStats env (5 + k) table stats
                            (Truncate now i) with
                    | Some err => failed err
                    | None => []
                    end
             end
      end)%list.
Proof.
  cbv zeta.
  destruct (archiveCycle_events projectId env dim i w) as [-> _].
  pose proof (archiveToBigQuery_run projectId env dim i (waited env i w))
    as Hrun.
  cbv zeta in Hrun.
  change (tick (waited env i w)) with (2 + tick w)%nat in Hrun.
  unfold eval.
  destruct (QueryDims env (2 + tick w) [dim])
    as [err|[|[name stats] rest]].
  - rewrite (events_advance _ (waited env i w) 1 [EQueryDims [dim]])
      by (unfold exec; by rewrite Hrun).
    by rewrite Hrun.
  - rewrite (events_advance _ (waited env i w) 1 [EQueryDims [dim]])
      by (unfold exec; by rewrite Hrun).
    by rewrite Hrun.
  - change (S (2 + tick w)) with (3 + tick w)%nat in Hrun.
    destruct (NewStatsTable env (3 + tick w) projectId datasetId name)
      as [err|table].
    + rewrite (events_advance _ (waited env i w) 2
                 [EQueryDims [dim]; ENewStatsTable projectId datasetId name])
        by (unfold exec; by rewrite Hrun).
      by rewrite Hrun.
    + change (S (3 + tick w)) with (4 + tick w)%nat in Hrun.
      change (S (4 + tick w)) with (5 + tick w)%nat in Hrun.
      rewrite (events_advance _ (waited env i w) 4
                 [EQueryDims [dim]; ENewStatsTable projectId datasetId name;
                  ENow (Now env (4 + tick w));
                  EWriteStats table stats
                    (Truncate (Now env (4 + tick w)) i)])
        by (unfold exec; by rewrite Hrun).
      rewrite Hrun. cbn [fst].
      by destruct (WriteStats env (5 + tick w) table stats _).
Qed.

(** C6: the loop of a dimension has no way out, and a failure costs
  one log line. After any number of iterations, whatever the
  collaborators answered in them, the goroutine is still in its loop
  and runs the next iteration: two clock readings, the sleep until the
  next aligned boundary, one query. When the query, the table handle or
  the write of that iteration fails, the iteration ends there with the
  error of the failing call written to the log, nothing is tried a
  second time, and the loop goes on to the next iteration. *)
Theorem archive_loop_never_exits (dim : string) (i : Z) (n : nat)
    (w : World) :
  let w1 := exec (archiveLoop projectId env n dim i) w in
  let k := tick w1 in
  let t0 := Now env k in
  let t1 := Now env (S k) in
  let failed (err : Go.error) :=
    [ELog ("Unable to archive dimension " ++ dim
           ++ " to BigQuery: " ++ err)] in
  let cyc := events (archiveCycle projectId env dim i) w1 in
  archiveGoroutine projectId env n dim i w = (Next, w1)
  /\ archiveGoroutine projectId env (S n) dim i w
     = (Next, exec (archiveCycle projectId env dim i) w1)
  /\ length (filter isSleep (events (archiveLoop projectId env n dim i) w)) = n
  /\ cyc =
     ([ENow t0; ENow t1; ESleep (Sub (nextBoundary t0 i) t1);
       EQueryDims [dim]]
      ++ match QueryDims env (2 + k) [dim] with
         | inl err => failed err
         | inr [] => []
         | inr ((name, stats) :: _) =>
             ENewStatsTable projectId datasetId name
             :: match NewStatsTable env (3 + k) projectId datasetId name with
                | inl err => failed err
                | inr table =>
                    let now := Now env (4 + k) in
                    [ENow now; EWriteStats table stats (Truncate now i)]
                    ++ match WriteStats env (5 + k) table stats
                               (Truncate now i) with
                       | Some err => failed err
                       | None => []
                       end
                end
         end)%list
  /\ filter isQuery cyc = [EQueryDims [dim]]
  /\ (length (filter isWrite cyc) <= 1)%nat.
Proof.
  intros w1 k t0 t1 failed cyc.
  split; [apply archiveGoroutine_run|].
  split; [by rewrite archiveGoroutine_run, archiveLoop_snoc|].
  split.
  { destruct (archiveLoop_events projectId env n dim i w)
      as (k' & evs' & He & Hn).
    by rewrite (events_advance _ _ _ _ He). }
  split; [apply archiveCycle_trace|].
  destruct (archiveCycle_events projectId env dim i w1) as [Hc _].
  cbv zeta in Hc. fold cyc in Hc.
  destruct (archiveToBigQuery_events projectId env dim i (waited env i w1))
    as (m & evs & Hexec & _ & _ & Hq & Hw).
  rewrite (events_advance _ _ _ _ Hexec) in Hc.
  rewrite Hc, !filter_app, Hq.
  destruct (eval _ _); simpl; rewrite ?app_nil_r;
    split; try done; rewrite ?length_app; simpl; lia.
Qed.

End LoopFacts.


(** * Start *)

Section StartFacts.
Import StateM Archive.

(** C8: [Start] spawns no goroutine when the project identifier is
    empty, and otherwise exactly three, one per dimension: fallback
    every 10 minutes, country every hour, user every 24 hours; in both
    cases all it does besides is to write one line to the log. *)
Theorem Start_schedules (projectId : string) (p : Process) :
  let p' := exec (Start projectId) p in
  goroutines p' =
    (goroutines p ++
     if decide (projectId = EmptyString) then []
     else [mkTask "fallback" (600 * 10 ^ 9);
           mkTask "country" (3600 * 10 ^ 9);
           mkTask "user" (86400 * 10 ^ 9)])%list
  /\ exists line, plog p' = (plog p ++ [line])%list.
Proof.
  cbv zeta. unfold Start.
  destruct (String.eqb_spec projectId EmptyString) as [->|Hne].
  - simpl. rewrite app_nil_r. eauto.
  - destruct (decide (projectId = EmptyString)); [contradiction|].
    unfold exec, bind, logLine, archivePeriodically, modify. simpl.
    rewrite <- !app_assoc. simpl. eauto.
Qed.

End StartFacts.

(** * Witnesses and counterexamples *)

Section Witnesses.
Import StateM Examples.

Lemma authenticateAgainst_iff_witness :
  Statshub.CurrentOAuth exEnv (exRequest "POST" exHash) = inr exUser
  /\ eval (Statshub.authenticateAgainst exEnv
             (Statshub.mkUserInfo 523523 exHash) (exRequest "POST" exHash))
          (freshWorld ∅) = (0, None)
  /\ eval (Statshub.authenticateAgainst exEnv
             (Statshub.mkUserInfo 523523 otherHash)
             (exRequest "POST" otherHash))
          (freshWorld ∅)
     = (403, Some "Hash mismatch, authentication failure").
Proof.
  split; [reflexivity|].
  destruct (authenticateAgainst_iff exEnv (exRequest "POST" exHash)
              523523 exHash exUser (freshWorld ∅) eq_refl) as (Hiff & _).
  destruct (authenticateAgainst_iff exEnv (exRequest "POST" otherHash)
              523523 otherHash exUser (freshWorld ∅) eq_refl)
    as (_ & Hne & _).
  split.
  - apply Hiff. vm_compute. reflexivity.
  - apply Hne. vm_compute. discriminate.
Defined.

Lemma counter_sum_wraps_witness :
  Go.inInt64 (Statshub.storedCounter ∅ 42 "clicks")
  /\ Permutation [clicks 3; clicks 2] [clicks 2; clicks 3]
  /\ Statshub.storedCounter
       (Statshub.submitAll 42 [clicks 3; clicks 2] ∅) 42 "clicks"
     = Go.wrap64 (0 + (3 + (2 + 0)))
  /\ Statshub.storedCounter
       (Statshub.submitAll 42 [clicks 2; clicks 3] ∅) 42 "clicks"
     = Statshub.storedCounter
         (Statshub.submitAll 42 [clicks 3; clicks 2] ∅) 42 "clicks".
Proof.
  assert (Hr : Go.inInt64 (Statshub.storedCounter ∅ 42 "clicks")).
  { vm_compute. split; discriminate. }
  assert (Hp : Permutation [clicks 3; clicks 2] [clicks 2; clicks 3]).
  { apply perm_swap. }
  destruct (counter_sum_wraps ∅ 42 "clicks" _ _ Hr Hp) as (Hs & _ & Ho & _).
  exact (conj Hr (conj Hp (conj Hs Ho))).
Defined.

(** Two submissions whose sum leaves [int64]: the stored value is not
    the sum. *)
Lemma counter_sum_overflows :
  Statshub.storedCounter
    (Statshub.submitAll 42 [clicks (2 ^ 63 - 1); clicks 1] ∅) 42 "clicks"
  <> Statshub.sumSubmitted "clicks" [clicks (2 ^ 63 - 1); clicks 1].
Proof. vm_compute. discriminate. Qed.

Lemma snapshot_timestamp_witness :
  0 < tenMinutes
  /\ In (Archive.EWriteStats exTable fallbackStats (seconds 1200))
        (Archive.events
           (Archive.archiveCycle "lantern" (exArchive punctualClock)
              "fallback" tenMinutes) startWorld)
  /\ seconds 1200 = Archive.Truncate (punctualClock 4) tenMinutes
  /\ seconds 1200 <> Archive.Truncate (punctualClock 4) tenMinutes + tenMinutes
  /\ seconds 1200 = Archive.nextBoundary (punctualClock 0) tenMinutes.
Proof.
  assert (Hi : 0 < tenMinutes) by reflexivity.
  assert (Hin : In (Archive.EWriteStats exTable fallbackStats (seconds 1200))
                   (Archive.events
                      (Archive.archiveCycle "lantern" (exArchive punctualClock)
                         "fallback" tenMinutes) startWorld)).
  { vm_compute. do 6 right. left. reflexivity. }
  destruct (snapshot_timestamp "lantern" (exArchive punctualClock) "fallback"
              tenMinutes startWorld exTable fallbackStats (seconds 1200)
              Hi Hin) as (Hts & _ & Hne & Hiff).
  refine (conj Hi (conj Hin (conj Hts (conj Hne _)))).
  apply Hiff. vm_compute. split; [discriminate | reflexivity].
Defined.

(** A cycle that wakes late: the timestamp written, 1800 s, is one
    interval after no clock reading of the cycle truncated. *)
Lemma snapshot_timestamp_not_next :
  In (Archive.EWriteStats exTable fallbackStats (seconds 1800))
     (Archive.events
        (Archive.archiveCycle "lantern" (exArchive lateClock)
           "fallback" tenMinutes) startWorld)
  /\ forall k,
      seconds 1800 <> Archive.Truncate (lateClock k) tenMinutes + tenMinutes.
Proof.
  split.
  - vm_compute. do 6 right. left. reflexivity.
  - intros k. unfold lateClock.
    destruct (k <? 2)%nat; vm_compute; discriminate.
Qed.

Lemma archive_first_entry_only_witness :
  Archive.QueryDims (exArchive punctualClock) 0 ["fallback"]
    = inr [("fallback", fallbackStats); ("stray", strayStats)]
  /\ (length (filter Archive.isWrite
                (Archive.events
                   (Archive.archiveToBigQuery "lantern"
                      (exArchive punctualClock) "fallback" tenMinutes)
                   startWorld)) <= 1)%nat
  /\ forall table stats ts,
      In (Archive.EWriteStats table stats ts)
         (Archive.events
            (Archive.archiveToBigQuery "lantern"
               (exArchive punctualClock) "fallback" tenMinutes)
            startWorld) ->
      stats = fallbackStats.
Proof.
  split; [reflexivity|].
  destruct (archive_first_entry_only "lantern" (exArchive punctualClock)
              "fallback" tenMinutes startWorld
              ("fallback", fallbackStats) [("stray", strayStats)] eq_refl)
    as (_ & _ & Hw & Hs & _).
  split; [exact Hw | exact Hs].
Defined.

(** A dimension with two entities: both are handed to the one write of
  the cycle. *)
Lemma archive_writes_all_entities :
  Archive.QueryDims (oneDimArchive punctualClock) 0 ["fallback"]
    = inr [("fallback", twoEntities)]
  /\ size twoEntities = 2%nat
  /\ filter Archive.isWrite
       (Archive.events
          (Archive.archiveToBigQuery "lantern" (oneDimArchive punctualClock)
             "fallback" tenMinutes) startWorld)
     = [Archive.EWriteStats exTable twoEntities (seconds 1200)]
  /\ twoEntities !! "fp-1" = Some (clicks 3)
  /\ twoEntities !! "fp-2" = Some (clicks 7).
Proof. vm_compute. repeat split. Qed.

Lemma nextBoundary_aligned_witness :
  0 < tenMinutes
  /\ seconds 1000 < Archive.nextBoundary (seconds 1000) tenMinutes
  /\ Archive.nextBoundary (seconds 1000) tenMinutes mod tenMinutes = 0.
Proof.
  assert (Hi : 0 < tenMinutes) by reflexivity.
  destruct (nextBoundary_aligned "lantern" (exArchive punctualClock)
              (seconds 1000) tenMinutes Hi) as (_ & [Hlt _] & Hm & _).
  exact (conj Hi (conj Hlt Hm)).
Defined.

(** An interval of seven hours: the boundary after the Unix epoch lies
  five hours after it, which is no multiple of seven hours. *)
Lemma nextBoundary_off_unix_epoch :
  0 < 7 * Archive.Hour
  /\ Archive.nextBoundary Archive.unixEpoch (7 * Archive.Hour)
     = Archive.unixEpoch + 5 * Archive.Hour
  /\ ~ (7 * Archive.Hour
        | Archive.nextBoundary Archive.unixEpoch (7 * Archive.Hour)
          - Archive.unixEpoch).
Proof.
  split; [reflexivity|]. split; [vm_compute; reflexivity|].
  intros Hd. apply Z.mod_divide in Hd; [|discriminate].
  vm_compute in Hd. discriminate.
Qed.

Lemma auth_failure_no_mutation_witness :
  Statshub.authFails exEnv (exRequest "POST" otherHash) = true
  /\ Statshub.store
       (Statshub.serve exEnv (exRequest "POST" otherHash)
          (Statshub.submit 42 (clicks 3) ∅) [])
     = Statshub.submit 42 (clicks 3) ∅
  /\ Statshub.redisCalls
       (Statshub.serve exEnv (exRequest "POST" otherHash)
          (Statshub.submit 42 (clicks 3) ∅) [])
     = [].
Proof.
  assert (Hf : Statshub.authFails exEnv (exRequest "POST" otherHash) = true).
  { vm_compute. reflexivity. }
  destruct (auth_failure_no_mutation exEnv (exRequest "POST" otherHash)
              (Statshub.submit 42 (clicks 3) ∅) [] Hf) as (Hs & Hc & _).
  exact (conj Hf (conj Hs Hc)).
Defined.

Lemma unsupported_method_witness :
  Statshub.Method (exRequest "DELETE" exHash) <> "POST"
  /\ Statshub.Method (exRequest "DELETE" exHash) <> "GET"
  /\ Statshub.status
       (Statshub.writer (Statshub.serve exEnv (exRequest "DELETE" exHash) ∅ []))
     = Some 405
  /\ Statshub.body
       (Statshub.writer (Statshub.serve exEnv (exRequest "DELETE" exHash) ∅ []))
     = EmptyString.
Proof.
  assert (HP : Statshub.Method (exRequest "DELETE" exHash) <> "POST")
    by discriminate.
  assert (HG : Statshub.Method (exRequest "DELETE" exHash) <> "GET")
    by discriminate.
  destruct (unsupported_method exEnv (exRequest "DELETE" exHash) ∅ [] HP HG)
    as (_ & Hiff & Hb).
  assert (H405 : Statshub.status
                   (Statshub.writer
                      (Statshub.serve exEnv (exRequest "DELETE" exHash) ∅ []))
                 = Some 405).
  { apply Hiff. split; [vm_compute; reflexivity|].
    exists exUser. split; vm_compute; reflexivity. }
  exact (conj HP (conj HG (conj H405 (proj1 (Hb H405))))).
Defined.

End Witnesses.

(** * The properties at sample inputs *)

Section Samples.
Import StateM Examples.

Example sha256_constants :
  length Sha256.K = 64%nat
  /\ nth 0 Sha256.K 0 = 0x428a2f98
  /\ nth 63 Sha256.K 0 = 0xc67178f2
  /\ nth 0 Sha256.init 0 = 0x6a09e667
  /\ nth 7 Sha256.init 0 = 0x5be0cd19.
Proof. vm_compute. repeat split. Qed.

Example sha256_abc :
  Hex.EncodeToString (Sha256.Sum (Go.bytes "abc"))
  = "ba7816bf8f01cfea414140de5dae2223b00361a396177a9cb410ff61f20015ad".
Proof. vm_compute. reflexivity. Qed.

Example sha256_empty :
  Hex.EncodeToString (Sha256.Sum (Go.bytes EmptyString))
  = "e3b0c44298fc1c149afbf4c8996fb92427ae41e4649b934ca495991b7852b855".
Proof. vm_compute. reflexivity. Qed.

Example sha256_two_blocks :
  Hex.EncodeToString
    (Sha256.Sum
       (Go.bytes "abcdbcdecdefdefgefghfghighijhijkijkljklmklmnlmnomnopnopq"))
  = "248d6a61d20638b8e5c026930c3e6039a33ce45964ff2167f6ecedd419db06c1".
Proof. vm_compute. reflexivity. Qed.

Example expectedHash_sample :
  Statshub.expectedHash "user@example.com" 523523 = exHash.
Proof. vm_compute. reflexivity. Qed.

Example Atoi_samples :
  Statshub.Atoi "523523" = inr 523523
  /\ Statshub.Atoi "-12" = inr (-12)
  /\ Statshub.Atoi EmptyString = inl Statshub.ErrSyntax
  /\ Statshub.Atoi "12a" = inl Statshub.ErrSyntax
  /\ Statshub.Atoi "9223372036854775807" = inr (2 ^ 63 - 1)
  /\ Statshub.Atoi "9223372036854775808" = inl Statshub.ErrRange.
Proof. vm_compute. repeat split. Qed.

Example status_samples :
  Statshub.statusOf exEnv (exRequest "POST" exHash) ∅ = Some 200
  /\ Statshub.statusOf exEnv (exRequest "GET" exHash) ∅ = Some 200
  /\ Statshub.statusOf exEnv (exRequest "POST" otherHash) ∅ = Some 403
  /\ Statshub.statusOf exEnv (exRequest "DELETE" exHash) ∅ = Some 405
  /\ Statshub.statusOf exEnv (exRequest "DELETE" otherHash) ∅ = Some 403.
Proof. vm_compute. repeat split. Qed.

(** Scenario 1 of the testable properties: 3 then 2 gives 5. *)
Example clicks_scenario :
  Statshub.storedCounter
    (Statshub.submitAll 42 [clicks 3; clicks 2] ∅) 42 "clicks" = 5.
Proof. vm_compute. reflexivity. Qed.

End Samples.
(** * Further properties of the ingestion handler *)

Section PathFacts.
Import Statshub Text.

Lemma lastIndexFrom_absent (sep : ascii) (s : string) :
  contains sep s = false ->
  forall i acc, lastIndexFrom i sep s acc = acc.
Proof.
  induction s as [|c s IH]; simpl; intros Hc i acc; [reflexivity|].
  apply orb_false_iff in Hc as [-> Hs]. by apply IH.
Qed.

Lemma lastIndexFrom_segment (sep : ascii) (p seg : string) :
  contains sep seg = false ->
  forall i acc,
    lastIndexFrom i sep (p ++ String sep seg) acc
    = i + Z.of_nat (String.length p).
Proof.
  intros Hseg. induction p as [|c p IH]; intros i acc.
  - simpl. rewrite Ascii.eqb_refl.
    rewrite lastIndexFrom_absent by done. lia.
  - change (String c p ++ String sep seg)
      with (String c (p ++ String sep seg)).
    cbn [lastIndexFrom String.length]. rewrite IH. lia.
Qed.

Lemma dropn_segment (p seg : string) (c : ascii) :
  dropn (S (String.length p)) (p ++ String c seg) = seg.
Proof. induction p as [|d p IH]; [reflexivity | exact IH]. Qed.

Lemma pretty_N_char_digit (d : N) :
  (d < 10)%N ->
  isDigit (pretty_N_char d) = true
  /\ Z.of_N (N_of_ascii (pretty_N_char d)) - 48 = Z.of_N d.
Proof.
  intros Hd.
  assert (d = 0 \/ d = 1 \/ d = 2 \/ d = 3 \/ d = 4 \/ d = 5 \/ d = 6
          \/ d = 7 \/ d = 8 \/ d = 9)%N as Hc by lia.
  repeat (destruct Hc as [->|Hc]; [split; reflexivity|]).
  subst. split; reflexivity.
Qed.

Lemma isDigit_not_sign (c : ascii) :
  isDigit c = true ->
  Ascii.eqb c "-" = false /\ Ascii.eqb c "+" = false /\ Ascii.eqb c "/" = false.
Proof.
  unfold isDigit. intros Hd.
  repeat split; apply Ascii.eqb_neq; intros ->; discriminate.
Qed.

(** The digits of [x] in front of [s] parse back to [x]. *)
Lemma parseUint_pretty_go (x : N) :
  forall s, Z.of_N x <= maxUint64 ->
    parseUint (pretty_N_go x s) 0 = parseUint s (Z.of_N x).
Proof.
  induction (N.lt_wf_0 x) as [x _ IH]. intros s Hx.
  destruct (N.eq_dec x 0%N) as [->|Hpos].
  - by rewrite pretty_N_go_0.
  - rewrite pretty_N_go_step by lia.
    assert (Hlt : ((x `div` 10) < x)%N) by (apply N.div_lt; lia).
    rewrite IH by (try done; lia).
    destruct (pretty_N_char_digit (x `mod` 10)) as [Hd Hv].
    { by apply N.mod_lt. }
    cbn [parseUint]. rewrite Hd, Hv.
    assert (Hx10 : Z.of_N (x `div` 10) * 10 + Z.of_N (x `mod` 10) = Z.of_N x).
    { pose proof (N.div_mod x 10 ltac:(done)). lia. }
    rewrite Hx10.
    destruct (Z.gtb_spec (Z.of_N x) maxUint64); [lia | reflexivity].
Qed.

(** The decimal form of a positive number starts with a digit and
  holds digits only. *)
Lemma pretty_N_go_digits (x : N) :
  forall s, allChars isDigit s = true ->
    allChars isDigit (pretty_N_go x s) = true.
Proof.
  induction (N.lt_wf_0 x) as [x _ IH]. intros s Hs.
  destruct (N.eq_dec x 0%N) as [->|Hpos].
  - by rewrite pretty_N_go_0.
  - rewrite pretty_N_go_step by lia.
    apply IH; [apply N.div_lt; lia|].
    cbn [allChars]. rewrite Hs.
    by destruct (pretty_N_char_digit (x `mod` 10)) as [-> _];
      [apply N.mod_lt|].
Qed.

Lemma pretty_N_go_nonempty (x : N) :
  forall s, (0 < x)%N -> pretty_N_go x s <> EmptyString.
Proof.
  induction (N.lt_wf_0 x) as [x _ IH]. intros s Hx.
  rewrite pretty_N_go_step by done.
  destruct (N.eq_dec (x `div` 10)%N 0%N) as [->|Hpos].
  - by rewrite pretty_N_go_0.
  - apply IH; [apply N.div_lt; lia | by apply N.neq_0_lt_0].
Qed.

Lemma digits_no_slash (s : string) :
  allChars isDigit s = true -> contains "/" s = false.
Proof.
  induction s as [|c s IH]; [done|]. cbn [allChars contains].
  intros [Hc Hs]%andb_true_iff.
  destruct (isDigit_not_sign c Hc) as (_ & _ & ->). by apply IH.
Qed.

Lemma Atoi_digits (s : string) (x : Z) :
  s <> EmptyString -> allChars isDigit s = true ->
  parseUint s 0 = inr x -> x < 2 ^ 63 ->
  Atoi s = inr x.
Proof.
  intros Hne Hd Hp Hx. destruct s as [|c s]; [done|].
  cbn [allChars] in Hd. apply andb_true_iff in Hd as [Hc _].
  destruct (isDigit_not_sign c Hc) as (Hm & Hpl & _).
  unfold Atoi. rewrite Hm, Hpl. cbn [orb negb andb]. rewrite Hp.
  destruct (Z.leb_spec (2 ^ 63) x); [lia | reflexivity].
Qed.

Lemma Atoi_minus_digits (s : string) (x : Z) :
  s <> EmptyString ->
  parseUint s 0 = inr x -> x <= 2 ^ 63 ->
  Atoi (String "-" s) = inr (- x).
Proof.
  intros Hne Hp Hx. unfold Atoi.
  cbn [Ascii.eqb Bool.eqb orb negb andb].
  destruct s as [|c s]; [done|]. rewrite Hp.
  destruct (Z.ltb_spec (2 ^ 63) x); [lia | reflexivity].
Qed.

(** [strconv.Atoi] reads back what [%d] printed, for every [int64]. *)
Lemma Atoi_fmt_d (n : Z) : Go.inInt64 n -> Atoi (Go.fmt_d n) = inr n.
Proof.
  unfold Go.inInt64, Go.minInt64, Go.maxInt64, Go.fmt_d. intros Hn.
  destruct n as [|p|p].
  - reflexivity.
  - change (pretty (Z.pos p)) with (pretty_N_go (N.pos p) EmptyString).
    apply Atoi_digits.
    + by apply pretty_N_go_nonempty.
    + by apply pretty_N_go_digits.
    + rewrite parseUint_pretty_go by (unfold maxUint64; lia). reflexivity.
    + lia.
  - change (pretty (Z.neg p))
      with (String "-" (pretty_N_go (N.pos p) EmptyString)).
    change (Z.neg p) with (- Z.of_N (N.pos p)).
    apply Atoi_minus_digits.
    + by apply pretty_N_go_nonempty.
    + rewrite parseUint_pretty_go by (unfold maxUint64; lia). reflexivity.
    + lia.
Qed.

Lemma fmt_d_no_slash (n : Z) : contains "/" (Go.fmt_d n) = false.
Proof.
  unfold Go.fmt_d. destruct n as [|p|p].
  - reflexivity.
  - change (pretty (Z.pos p)) with (pretty_N_go (N.pos p) EmptyString).
    by apply digits_no_slash, pretty_N_go_digits.
  - change (pretty (Z.neg p))
      with (String "-" (pretty_N_go (N.pos p) EmptyString)).
    cbn [contains Ascii.eqb Bool.eqb orb].
    by apply digits_no_slash, pretty_N_go_digits.
Qed.

(** Digits that spell a number beyond [uint64] stop the parse with a
  range error, whatever follows them. *)
Lemma parseUint_pretty_go_range (x : N) :
  forall s, maxUint64 < Z.of_N x ->
    parseUint (pretty_N_go x s) 0 = inl ErrRange.
Proof.
  induction (N.lt_wf_0 x) as [x _ IH]. intros s Hx.
  assert (Hpos : (0 < x)%N) by (unfold maxUint64 in Hx; lia).
  rewrite pretty_N_go_step by done.
  assert (Hlt : ((x `div` 10) < x)%N) by (apply N.div_lt; lia).
  destruct (Z.le_gt_cases (Z.of_N (x `div` 10)) maxUint64) as [Hle|Hgt].
  - rewrite parseUint_pretty_go by done.
    destruct (pretty_N_char_digit (x `mod` 10)) as [Hd Hv].
    { by apply N.mod_lt. }
    cbn [parseUint]. rewrite Hd, Hv.
    assert (Hx10 : Z.of_N (x `div` 10) * 10 + Z.of_N (x `mod` 10) = Z.of_N x).
    { pose proof (N.div_mod x 10 ltac:(done)). lia. }
    rewrite Hx10.
    destruct (Z.gtb_spec (Z.of_N x) maxUint64); [reflexivity | lia].
  - apply IH; [done | lia].
Qed.

(** The decimal form of every integer outside [int64] is refused by
  [strconv.Atoi] as out of range. *)
Lemma Atoi_fmt_d_range (n : Z) :
  ~ Go.inInt64 n -> Atoi (Go.fmt_d n) = inl ErrRange.
Proof.
  unfold Go.inInt64, Go.minInt64, Go.maxInt64, Go.fmt_d. intros Hn.
  destruct n as [|p|p]; [lia|..].
  - change (pretty (Z.pos p)) with (pretty_N_go (N.pos p) EmptyString).
    pose proof (pretty_N_go_nonempty (N.pos p) EmptyString ltac:(lia)) as Hne.
    pose proof (pretty_N_go_digits (N.pos p) EmptyString eq_refl) as Hd.
    destruct (pretty_N_go (N.pos p) EmptyString) as [|c s] eqn:Hs; [done|].
    cbn [allChars] in Hd. apply andb_true_iff in Hd as [Hc _].
    destruct (isDigit_not_sign c Hc) as (Hm & Hpl & _).
    unfold Atoi. rewrite Hm, Hpl. cbn [orb negb andb]. rewrite <- Hs.
    destruct (Z.le_gt_cases (Z.pos p) maxUint64) as [Hle|Hgt].
    + rewrite parseUint_pretty_go by done.
      cbn [parseUint].
      destruct (Z.leb_spec (2 ^ 63) (Z.of_N (N.pos p))); [reflexivity | lia].
    + by rewrite parseUint_pretty_go_range.
  - change (pretty (Z.neg p))
      with (String "-" (pretty_N_go (N.pos p) EmptyString)).
    pose proof (pretty_N_go_nonempty (N.pos p) EmptyString ltac:(lia)) as Hne.
    unfold Atoi. cbn [Ascii.eqb Bool.eqb orb negb andb].
    destruct (pretty_N_go (N.pos p) EmptyString) as [|c s] eqn:Hs; [done|].
    rewrite <- Hs.
    destruct (Z.le_gt_cases (Z.pos p) maxUint64) as [Hle|Hgt].
    + rewrite parseUint_pretty_go by done.
      cbn [parseUint].
      destruct (Z.ltb_spec (2 ^ 63) (Z.of_N (N.pos p))); [reflexivity | lia].
    + by rewrite parseUint_pretty_go_range.
Qed.

(** A leading zero or a plus sign in front of a non-negative decimal
  form does not change what [strconv.Atoi] reads. *)
Lemma Atoi_spellings (n : Z) :
  0 <= n -> Go.inInt64 n ->
  Atoi (String "+" (Go.fmt_d n)) = inr n
  /\ Atoi (String "0" (Go.fmt_d n)) = inr n.
Proof.
  intros H0 Hn. pose proof (Atoi_fmt_d n Hn) as Hplain.
  unfold Go.inInt64, Go.minInt64, Go.maxInt64, Go.fmt_d in *.
  destruct n as [|p|p]; [split; reflexivity| |lia].
  change (pretty (Z.pos p)) with (pretty_N_go (N.pos p) EmptyString) in *.
  pose proof (pretty_N_go_nonempty (N.pos p) EmptyString ltac:(lia)) as Hne.
  pose proof (pretty_N_go_digits (N.pos p) EmptyString eq_refl) as Hd.
  assert (Hp : parseUint (pretty_N_go (N.pos p) EmptyString) 0
               = inr (Z.pos p)).
  { rewrite parseUint_pretty_go by (unfold maxUint64; lia). reflexivity. }
  split.
  - unfold Atoi. cbn [Ascii.eqb Bool.eqb orb negb andb].
    destruct (pretty_N_go (N.pos p) EmptyString) as [|c s] eqn:Hs; [done|].
    rewrite Hp.
    destruct (Z.leb_spec (2 ^ 63) (Z.pos p)); [lia | reflexivity].
  - apply Atoi_digits; [done | | | lia].
    + cbn [allChars]. by rewrite Hd.
    + cbn [parseUint isDigit]. exact Hp.
Qed.

End PathFacts.

Section ParsingFacts.
Import StateM Statshub Text.

Variable env : Statshub.Env.

(** A path that ends in a slash and a segment without slash, after a
  non-empty prefix, is parsed by reading that segment. *)
Lemma getUserInfo_segment (r : Request) (prefix seg : string) :
  prefix <> EmptyString ->
  contains "/" seg = false ->
  Path r = prefix ++ String "/" seg ->
  getUserInfo env r =
  match Atoi seg with
  | inl e =>
      inl ("Unable to convert userId " ++ seg ++ " to int: "
           ++ AtoiErrorText env seg e)
  | inr n =>
      match Query r !! "hash" with
      | None => inl "No hash provided in querystring"
      | Some [h] => inr (mkUserInfo n h)
      | Some _ => inl "Wrong number of hashes provided in querystring"
      end
  end.
Proof.
  intros Hp Hseg Hpath. unfold getUserInfo, LastIndex.
  rewrite Hpath, lastIndexFrom_segment by done.
  destruct prefix as [|c p]; [done|].
  destruct (Z.eqb_spec (0 + Z.of_nat (String.length (String c p))) 0) as [H0|_].
  { simpl in H0. lia. }
  unfold sliceFrom.
  replace (Z.to_nat (0 + Z.of_nat (String.length (String c p)) + 1))
    with (S (String.length (String c p))) by lia.
  rewrite dropn_segment.
  destruct (Atoi seg); [reflexivity|].
  by destruct (Query r !! "hash") as [[|h [|h' hs]]|].
Qed.

(** X1: the user id is read back from the last path segment. For every
  [int64] [n], a request whose path ends in a slash followed by the
  decimal form of [n] (after a non-empty prefix) and whose query holds
  exactly one [hash] value [h] parses to the user info [(n, h)]. *)
Theorem getUserInfo_roundtrip (r : Request) (prefix : string) (n : Z)
    (h : string) :
  prefix <> EmptyString ->
  Go.inInt64 n ->
  Path r = prefix ++ String "/" (Go.fmt_d n) ->
  Query r !! "hash" = Some [h] ->
  getUserInfo env r = inr (mkUserInfo n h).
Proof.
  intros Hp Hn Hpath Hq.
  rewrite (getUserInfo_segment r prefix (Go.fmt_d n))
    by (try done; apply fmt_d_no_slash).
  by rewrite Atoi_fmt_d, Hq.
Qed.

(** X2: the test for a missing user id looks at where the last slash
  is, not at the id. A path whose only slash is the leading one is
  refused as missing its user id, whatever follows the slash, also a
  well-formed id with a well-formed hash parameter. *)
Theorem getUserInfo_root_path (r : Request) (seg : string) :
  contains "/" seg = false ->
  Path r = String "/" seg ->
  getUserInfo env r = inl "Request URL is missing user id".
Proof.
  intros Hseg Hpath. unfold getUserInfo, LastIndex.
  rewrite Hpath.
  pose proof (lastIndexFrom_segment "/" EmptyString seg Hseg 0 (-1)) as Hl.
  change (EmptyString ++ String "/" seg) with (String "/" seg) in Hl.
  rewrite Hl. reflexivity.
Qed.

(** X3: under [/stats/], where the handler is registered, the "missing
  user id" error is never produced: an absent id, the path [/stats/]
  itself, is reported as an id that does not convert, and so is every
  segment [strconv.Atoi] rejects. *)
Theorem getUserInfo_stats_path (r : Request) (rest : string) :
  Path r = "/stats/" ++ rest ->
  getUserInfo env r <> inl "Request URL is missing user id"
  /\ (rest = EmptyString ->
      getUserInfo env r =
      inl ("Unable to convert userId  to int: "
           ++ AtoiErrorText env EmptyString ErrSyntax))
  /\ (forall e, Atoi (userIdSegment r) = inl e ->
      getUserInfo env r =
      inl ("Unable to convert userId " ++ userIdSegment r ++ " to int: "
           ++ AtoiErrorText env (userIdSegment r) e)).
Proof.
  intros Hpath.
  assert (Hl : 6 <= LastIndex (Path r) "/").
  { rewrite Hpath. unfold LastIndex. simpl.
    apply lastIndexFrom_lower. lia. }
  assert (Hconv : forall e, Atoi (userIdSegment r) = inl e ->
            getUserInfo env r =
            inl ("Unable to convert userId " ++ userIdSegment r ++ " to int: "
                 ++ AtoiErrorText env (userIdSegment r) e)).
  { intros e He. unfold getUserInfo. fold (userIdSegment r).
    destruct (Z.eqb_spec (LastIndex (Path r) "/") 0); [lia|].
    by rewrite He. }
  split; [|split; [|exact Hconv]].
  - unfold getUserInfo.
    destruct (Z.eqb_spec (LastIndex (Path r) "/") 0); [lia|].
    destruct (Atoi _); [discriminate|].
    destruct (Query r !! "hash") as [[|h [|h' hs]]|]; discriminate.
  - intros ->.
    assert (Hseg : userIdSegment r = EmptyString).
    { unfold userIdSegment. rewrite Hpath. reflexivity. }
    rewrite (Hconv ErrSyntax) by (by rewrite Hseg).
    by rewrite Hseg.
Qed.

(** X17: an id outside [int64] is refused. For every integer [n] that
  does not fit an [int64], a request under [/stats/] whose last segment
  is the decimal form of [n] fails to parse, with the range error of
  [strconv.Atoi] in its message, whatever its hash parameter: the
  bound of the round trip is sharp. *)
Theorem getUserInfo_out_of_range (r : Request) (n : Z) :
  ~ Go.inInt64 n ->
  Path r = "/stats/" ++ Go.fmt_d n ->
  getUserInfo env r =
  inl ("Unable to convert userId " ++ Go.fmt_d n ++ " to int: "
       ++ AtoiErrorText env (Go.fmt_d n) ErrRange).
Proof.
  intros Hn Hpath.
  rewrite (getUserInfo_segment r "/stats" (Go.fmt_d n))
    by (try done; apply fmt_d_no_slash).
  by rewrite Atoi_fmt_d_range.
Qed.

(** X18: other spellings of an id are read as the id. For a
  non-negative [int64] [n], a last path segment that puts a plus sign
  or a zero in front of the decimal form of [n] parses to the same user
  id [n] as the decimal form itself; the hash to present is therefore
  the one computed over the decimal form, not over the segment sent. *)
Theorem getUserInfo_spellings (r : Request) (n : Z) (h : string)
    (lead : ascii) :
  0 <= n -> Go.inInt64 n ->
  lead = "+"%char \/ lead = "0"%char ->
  Path r = "/stats/" ++ String lead (Go.fmt_d n) ->
  Query r !! "hash" = Some [h] ->
  getUserInfo env r = inr (mkUserInfo n h).
Proof.
  intros H0 Hn Hlead Hpath Hq.
  destruct (Atoi_spellings n H0 Hn) as [Hplus Hzero].
  rewrite (getUserInfo_segment r "/stats" (String lead (Go.fmt_d n)));
    try done.
  - destruct Hlead as [->| ->]; [rewrite Hplus | rewrite Hzero];
      by rewrite Hq.
  - cbn [contains]. rewrite fmt_d_no_slash.
    by destruct Hlead as [->| ->].
Qed.

End ParsingFacts.

Section HashFacts.
Import StateM Statshub Text.

Lemma append_assoc (a b c : string) : (a ++ b) ++ c = a ++ (b ++ c).
Proof.
  induction a as [|x a IH]; [reflexivity|].
  change (String x ((a ++ b) ++ c) = String x (a ++ (b ++ c))).
  by rewrite IH.
Qed.

Lemma compress_length (h block : list Z) :
  length h = 8%nat -> length (Sha256.compress h block) = 8%nat.
Proof.
  intros Hh. unfold Sha256.compress. rewrite length_zip_with, Hh.
  reflexivity.
Qed.

Lemma Sum_length (msg : list Z) : length (Sha256.Sum msg) = 32%nat.
Proof.
  unfold Sha256.Sum.
  set (blocks := Sha256.chunks 64 _ _).
  assert (Hh : length (fold_left Sha256.compress blocks Sha256.init) = 8%nat).
  { assert (Hi : length Sha256.init = 8%nat) by (vm_compute; reflexivity).
    revert Hi. generalize Sha256.init. clear.
    induction blocks as [|b blocks IH]; intros h Hh; simpl; [done|].
    by apply IH, compress_length. }
  revert Hh. generalize (fold_left Sha256.compress blocks Sha256.init).
  intros h.
  do 9 (destruct h as [|? h]; try discriminate). reflexivity.
Qed.

Lemma digit_lower_hex (n : Z) : isLowerHex (Hex.digit n) = true.
Proof.
  unfold Hex.digit. generalize (Z.to_nat n). intros k.
  do 17 (destruct k as [|k]; [reflexivity|]). reflexivity.
Qed.

Lemma EncodeToString_format (src : list Z) :
  String.length (Hex.EncodeToString src) = (2 * length src)%nat
  /\ allChars isLowerHex (Hex.EncodeToString src) = true.
Proof.
  induction src as [|b src [IHl IHc]]; [done|].
  cbn [Hex.EncodeToString String.length allChars length].
  rewrite IHl, IHc, !digit_lower_hex. split; [lia | reflexivity].
Qed.

Lemma expectedHash_format (email : string) (userId : Z) :
  String.length (expectedHash email userId) = 64%nat
  /\ allChars isLowerHex (expectedHash email userId) = true.
Proof.
  unfold expectedHash.
  destruct (EncodeToString_format
              (Sha256.Sum (Go.bytes (email ++ Go.fmt_d userId)))) as [Hl Hc].
  rewrite Sum_length in Hl. by split.
Qed.

Variable env : Statshub.Env.

(** X4: a proof is accepted only in one spelling. For an authenticated
  caller, a supplied hash that is not 64 characters long or holds a
  character other than [0-9a-f] (an upper-case hex digit, say) is
  refused with 403, whatever digest it spells. *)
Theorem authenticateAgainst_format (ui : UserInfo) (r : Request)
    (u : User) (σ : World) :
  CurrentOAuth env r = inr u ->
  String.length (Hash ui) <> 64%nat
    \/ allChars isLowerHex (Hash ui) = false ->
  eval (authenticateAgainst env ui r) σ
  = (403, Some "Hash mismatch, authentication failure").
Proof.
  intros Hu Hbad. rewrite authenticateAgainst_result, Hu.
  destruct (String.eqb_spec (Hash ui) (expectedHash (Email u) (UserId ui)))
    as [Heq|]; [|reflexivity].
  destruct (expectedHash_format (Email u) (UserId ui)) as [Hl Hc].
  rewrite <- Heq in Hl, Hc.
  destruct Hbad as [Hbad|Hbad]; [contradiction | congruence].
Qed.

Lemma pretty_N_go_app (x : N) :
  forall s, pretty_N_go x s = pretty_N_go x EmptyString ++ s.
Proof.
  induction (N.lt_wf_0 x) as [x _ IH]. intros s.
  destruct (N.eq_dec x 0%N) as [->|Hpos].
  - by rewrite !pretty_N_go_0.
  - rewrite (pretty_N_go_step x s), (pretty_N_go_step x EmptyString) by lia.
    assert (Hlt : ((x `div` 10) < x)%N) by (apply N.div_lt; lia).
    rewrite (IH _ Hlt (String _ s)), (IH _ Hlt (String _ EmptyString)).
    by rewrite append_assoc.
Qed.

(** Appending a digit to the decimal form of a positive number. *)
Lemma fmt_d_snoc (a d : Z) :
  0 < a -> 0 <= d <= 9 ->
  Go.fmt_d (10 * a + d) = Go.fmt_d a ++ Go.fmt_d d.
Proof.
  intros Ha Hd. unfold Go.fmt_d.
  destruct a as [|p|p]; try lia.
  assert (Hq : exists q, 10 * Z.pos p + d = Z.pos q
                          /\ ((N.pos q `div` 10) = N.pos p)%N
                          /\ Z.of_N (N.pos q `mod` 10) = d).
  { destruct (10 * Z.pos p + d) as [|q|q] eqn:Hq; try lia.
    exists q. split; [done|].
    assert (Hn : N.pos q = (10 * N.pos p + Z.to_N d)%N) by lia.
    rewrite Hn. split.
    - rewrite N.mul_comm, N.div_add_l by done.
      rewrite N.div_small by lia. lia.
    - rewrite N.add_comm, N.mul_comm, N.Div0.mod_add.
      rewrite N.mod_small by lia. lia. }
  destruct Hq as (q & -> & Hdiv & Hmod).
  change (pretty (Z.pos q)) with (pretty_N_go (N.pos q) EmptyString).
  change (pretty (Z.pos p)) with (pretty_N_go (N.pos p) EmptyString).
  rewrite pretty_N_go_step by lia. rewrite Hdiv, pretty_N_go_app.
  f_equal.
  assert (d = 0 \/ d = 1 \/ d = 2 \/ d = 3 \/ d = 4 \/ d = 5 \/ d = 6
          \/ d = 7 \/ d = 8 \/ d = 9) as Hc by lia.
  assert (Hm : (N.pos q `mod` 10)%N = Z.to_N d) by lia.
  rewrite Hm.
  clear Hm Hmod Hd Hdiv.
  repeat (destruct Hc as [->|Hc]; [reflexivity|]). by subst.
Qed.

(** X5: the hash input joins the identity and the id without a
  separator, so digits can move between them: the proof computed for
  an account whose identity ends in the decimal form of [a > 0],
  claiming the one digit id [d], is the proof of the account without
  those digits claiming id [10 * a + d]; what one accepts, the other
  accepts. *)
Theorem hash_input_ambiguous (email : string) (a d : Z) (env' : Statshub.Env)
    (r : Request) (H : string) (σ : World) :
  0 < a -> 0 <= d <= 9 ->
  CurrentOAuth env r = inr (mkUser (email ++ Go.fmt_d a)) ->
  CurrentOAuth env' r = inr (mkUser email) ->
  expectedHash (email ++ Go.fmt_d a) d = expectedHash email (10 * a + d)
  /\ eval (authenticateAgainst env (mkUserInfo d H) r) σ
     = eval (authenticateAgainst env' (mkUserInfo (10 * a + d) H) r) σ.
Proof.
  intros Ha Hd Hu Hu'.
  assert (Heq : expectedHash (email ++ Go.fmt_d a) d
                = expectedHash email (10 * a + d)).
  { unfold expectedHash. by rewrite fmt_d_snoc, append_assoc. }
  split; [exact Heq|].
  rewrite !authenticateAgainst_result, Hu, Hu'. simpl. by rewrite Heq.
Qed.

End HashFacts.

Section ReplyFacts.
Import StateM Statshub Text Reply.

Variable env : Statshub.Env.

Local Arguments String.eqb : simpl never.
Local Arguments expectedHash : simpl never.
Local Arguments String.append : simpl never.

Lemma replied_fields (hdr : gmap string string) (code : Z) (p : Payload)
    (st : gmap (string * string) Stats) (calls : list RedisCall)
    (l : list string) :
  let σ := replied env hdr code p st calls l in
  status (writer σ) = Some code
  /\ header (writer σ) = hdr
  /\ store σ = st
  /\ redisCalls σ = calls
  /\ body (writer σ) =
     match Marshal env p with inr bytes => bytes | inl _ => EmptyString end
  /\ log σ =
     match Marshal env p with
     | inr _ => l
     | inl err =>
         (l ++ [("Unable to respond to client: " ++ err)%string])%list
     end.
Proof.
  unfold replied, write, exec, bind, WriteHeader, Write, onWriter, logPrintf,
    modify. simpl.
  destruct (Marshal env p); simpl; auto 10.
Qed.

(** Every way a request ends, with the reply written by [write]. *)
Lemma serve_outcome (r : Request) (s : gmap (string * string) Stats)
    (l : list string) :
  serve env r s l =
  if badUserId r || badHash r then
    match getUserInfo env r with
    | inl err => replied env ∅ 400 (failure err) s [] l
    | inr _ => mkWorld freshWriter s [] l
    end
  else
    match CurrentOAuth env r with
    | inl err =>
        replied env ∅ 401 (failure ("Not authenticated: " ++ err)) s [] l
    | inr u =>
        let line := "Expected hash: "
                    ++ expectedHash (Email u) (claimedId r) in
        let l' : list string := (l ++ [line])%list in
        let id := claimedId r in
        if hashMatches u r then
          if String.eqb (Method r) "POST" then
            match Decode env (Body r) with
            | inl e =>
                replied env jsonHeader 400
                  (failure ("Unable to decode request: " ++ e)) s [] l'
            | inr sub =>
                match postErr env with
                | Some e =>
                    replied env jsonHeader 500
                      (failure ("Unable to post stats: " ++ e))
                      s [CPost id sub] l'
                | None =>
                    replied env jsonHeader 200
                      (PResponse (mkResponse true EmptyString))
                      (submit id (Bundle sub) s) [CPost id sub] l'
                end
            end
          else if String.eqb (Method r) "GET" then
            match connectErr env with
            | Some e =>
                replied env jsonHeader 500
                  (failure ("Unable to connect to redis: " ++ e))
                  s [CConnect] l'
            | None =>
                match queryErr env with
                | Some e =>
                    replied env jsonHeader 500
                      (failure ("Unable to query stats: " ++ e))
                      s [CConnect; CQuery id] l'
                | None =>
                    replied env jsonHeader 200
                      (PStats (default newStats (s !! entityKey id)))
                      s [CConnect; CQuery id] l'
                end
            end
          else
            mkWorld (mkWriter ∅ (Some 405) EmptyString) s []
              (l' ++ [("Query: " ++ FormatValues env (Query r))%string])%list
        else
          replied env ∅ 403
            (failure "Hash mismatch, authentication failure") s [] l'
    end.
Proof.
  rewrite statsHandler_unfold.
  destruct (badUserId r || badHash r); [reflexivity|].
  destruct (CurrentOAuth env r) as [err|u]; [reflexivity|]. cbv zeta.
  destruct (hashMatches u r); [|reflexivity].
  destruct (String.eqb (Method r) "POST").
  { unfold replied, exec, bind, HeaderSet, postStats, postToRedis, redisCall,
      fail, onWriter, modify, ret, jsonHeader, failure. simpl.
    destruct (Decode env (Body r)) as [e|sub]; simpl; [reflexivity|].
    destruct (postErr env) as [e|]; reflexivity. }
  destruct (String.eqb (Method r) "GET"); [|reflexivity].
  unfold replied, exec, bind, HeaderSet, getStats, connectToRedis, query,
    redisCall, fail, onWriter, modify, ret, jsonHeader, failure. simpl.
  destruct (connectErr env) as [e|]; simpl; [reflexivity|].
  destruct (queryErr env) as [e|]; reflexivity.
Qed.

Lemma getUserInfo_parsed (r : Request) (ui : UserInfo) :
  getUserInfo env r = inr ui ->
  badUserId r || badHash r = false
  /\ claimedId r = UserId ui /\ claimedHash r = Hash ui.
Proof.
  intros Hui. destruct (badUserId r || badHash r) eqn:Hbad.
  - destruct (getUserInfo_malformed env r Hbad) as [err Herr]. congruence.
  - pose proof (getUserInfo_wellformed env r Hbad) as Hw.
    rewrite Hui in Hw. injection Hw as ->. auto.
Qed.

(** X6: every call that reaches the Redis client is made for a request
  that parsed and authenticated, and for the user id that was
  authenticated: a write only for a POST whose body decoded, and then
  as the only call of the request; a query only for a GET, after the
  connection succeeded. *)
Theorem redis_calls_authenticated (r : Request)
    (s : gmap (string * string) Stats) (l : list string) (c : RedisCall) :
  In c (redisCalls (serve env r s l)) ->
  badUserId r || badHash r = false
  /\ authFails env r = false
  /\ match c with
     | CPost id sub =>
         Method r = "POST" /\ id = claimedId r
         /\ Decode env (Body r) = inr sub
         /\ redisCalls (serve env r s l) = [c]
     | CConnect => Method r = "GET"
     | CQuery id =>
         Method r = "GET" /\ id = claimedId r /\ connectErr env = None
     end.
Proof.
  rewrite serve_outcome. unfold authFails.
  destruct (badUserId r || badHash r).
  { destruct (getUserInfo env r); [rewrite (proj1 (proj2 (proj2 (proj2 (replied_fields _ _ _ _ _ _)))))|];
      simpl; intros []. }
  destruct (CurrentOAuth env r) as [err|u].
  { rewrite (proj1 (proj2 (proj2 (proj2 (replied_fields _ _ _ _ _ _))))).
    intros []. }
  cbv zeta. destruct (hashMatches u r).
  2:{ rewrite (proj1 (proj2 (proj2 (proj2 (replied_fields _ _ _ _ _ _))))).
      intros []. }
  destruct (String.eqb_spec (Method r) "POST") as [HP|HP].
  { destruct (Decode env (Body r)) as [e|sub];
      [|destruct (postErr env)];
      rewrite (proj1 (proj2 (proj2 (proj2 (replied_fields _ _ _ _ _ _)))));
      simpl; intros H; [destruct H|..]; destruct H as [<-|[]]; auto 10. }
  destruct (String.eqb_spec (Method r) "GET") as [HG|HG]; [|intros []].
  destruct (connectErr env) as [e|] eqn:Hc; [|destruct (queryErr env)];
    rewrite (proj1 (proj2 (proj2 (proj2 (replied_fields _ _ _ _ _ _)))));
    simpl; intros H.
  - destruct H as [<-|[]]; auto.
  - destruct H as [<-|[<-|[]]]; auto.
  - destruct H as [<-|[<-|[]]]; auto.
Qed.

(** X7: the handler names a content type only in its method branches.
  The header map of the response writer, [w.Header()], holds
  [Content-Type: application/json] exactly after a well-formed,
  authenticated POST or GET request; after the failure replies 400
  (malformed), 401 and 403, whose bodies are JSON all the same, and
  after 405 the handler has put nothing into it, so that the content
  type of those replies is left to the server. *)
Theorem content_type_header (r : Request)
    (s : gmap (string * string) Stats) (l : list string) :
  header (writer (serve env r s l)) =
  if negb (badUserId r || badHash r) && negb (authFails env r)
     && (String.eqb (Method r) "POST" || String.eqb (Method r) "GET")
  then {["Content-Type" := "application/json"]}
  else ∅.
Proof.
  assert (Hj : jsonHeader = {["Content-Type" := "application/json"]}).
  { unfold jsonHeader. apply insert_empty. }
  rewrite serve_outcome. unfold authFails.
  destruct (badUserId r || badHash r).
  { destruct (getUserInfo env r); [|reflexivity].
    apply replied_fields. }
  destruct (CurrentOAuth env r) as [err|u]; [apply replied_fields|].
  cbv zeta. destruct (hashMatches u r); [|apply replied_fields].
  destruct (String.eqb (Method r) "POST").
  { rewrite <- Hj.
    destruct (Decode env (Body r)); [|destruct (postErr env)];
      apply replied_fields. }
  destruct (String.eqb (Method r) "GET"); [|reflexivity].
  rewrite <- Hj.
  destruct (connectErr env); [|destruct (queryErr env)];
    apply replied_fields.
Qed.

Ltac use_replied :=
  match goal with
  | |- context [replied env ?h ?c ?p ?st ?cs ?l] =>
      destruct (replied_fields h c p st cs l) as (-> & _ & _ & _ & -> & _)
  end.

(** X8: what the body of a reply is. Every reply but 405 carries the
  JSON form of one payload, or nothing when that payload does not
  marshal (the status line is sent all the same): a response with
  [Succeeded = false] and an error text on every status other than 200,
  the response with [Succeeded = true] and an empty error on a
  successful POST, and on a successful GET the stats that [query]
  answered for the authenticated user id, alone. The 405 reply has no
  body. *)
Theorem reply_payload (r : Request) (s : gmap (string * string) Stats)
    (l : list string) :
  let w := writer (serve env r s l) in
  (status w = Some 405 /\ body w = EmptyString)
  \/ exists p,
       body w = match Marshal env p with
                | inr bytes => bytes
                | inl _ => EmptyString
                end
       /\ ((status w = Some 200 /\ Method r = "POST"
            /\ p = PResponse (mkResponse true EmptyString))
           \/ (status w = Some 200 /\ Method r = "GET"
               /\ exists stats,
                   p = PStats stats
                   /\ forall σ, store σ = s ->
                       eval (query env (claimedId r)) σ = inr stats)
           \/ (exists code err,
                 status w = Some code /\ code <> 200
                 /\ p = PResponse (mkResponse false err))).
Proof.
  cbv zeta. rewrite serve_outcome.
  destruct (badUserId r || badHash r) eqn:Hbad.
  { destruct (getUserInfo_malformed env r Hbad) as [err ->].
    right. eexists. use_replied. split; [reflexivity|].
    right. right. by exists 400, err. }
  destruct (CurrentOAuth env r) as [err|u].
  { right. eexists. use_replied. split; [reflexivity|].
    right. right. by eexists 401, _. }
  cbv zeta. destruct (hashMatches u r).
  2:{ right. eexists. use_replied. split; [reflexivity|].
      right. right. by eexists 403, _. }
  destruct (String.eqb_spec (Method r) "POST") as [HP|HP].
  { right. destruct (Decode env (Body r)) as [e|sub];
      [|destruct (postErr env)]; eexists; use_replied;
      (split; [reflexivity|]).
    - right. right. by eexists 400, _.
    - right. right. by eexists 500, _.
    - by left. }
  destruct (String.eqb_spec (Method r) "GET") as [HG|HG]; [|by left].
  right. destruct (connectErr env); [|destruct (queryErr env) eqn:Hquery];
    eexists; use_replied; (split; [reflexivity|]).
  - right. right. by eexists 500, _.
  - right. right. by eexists 500, _.
  - right. left. split; [done|]. split; [done|].
    eexists. split; [reflexivity|].
    intros σ Hs. unfold eval, query, bind, redisCall, modify. simpl.
    by rewrite Hquery, Hs.
Qed.

(** X9: the valid proof is written to the log. For every well-formed
  request of an authenticated caller, the handler logs the hash that
  would authenticate the claimed id, whatever hash the request
  supplied and whatever its method: also a request answered 403 leaves
  the accepted proof in the server log. *)
Theorem expected_hash_logged (r : Request)
    (s : gmap (string * string) Stats) (l : list string) (u : User) :
  badUserId r || badHash r = false ->
  CurrentOAuth env r = inr u ->
  In ("Expected hash: " ++ expectedHash (Email u) (claimedId r))
     (log (serve env r s l)).
Proof.
  intros Hbad Hu. rewrite serve_outcome, Hbad, Hu. cbv zeta.
  set (line := "Expected hash: " ++ expectedHash (Email u) (claimedId r)).
  assert (Hin : forall h c p st cs,
            In line (log (replied env h c p st cs (l ++ [line])))).
  { intros h c p st cs.
    destruct (replied_fields h c p st cs (l ++ [line]))
      as (_ & _ & _ & _ & _ & ->).
    destruct (Marshal env p); rewrite ?in_app_iff; simpl; auto. }
  destruct (hashMatches u r); [|apply Hin].
  destruct (String.eqb (Method r) "POST").
  { destruct (Decode env (Body r)); [|destruct (postErr env)]; apply Hin. }
  destruct (String.eqb (Method r) "GET").
  { destruct (connectErr env); [|destruct (queryErr env)]; apply Hin. }
  simpl. rewrite !in_app_iff. simpl. auto.
Qed.

Ltac use_replied_calls :=
  match goal with
  | |- context [replied env ?h ?c ?p ?st ?cs ?l] =>
      destruct (replied_fields h c p st cs l) as (-> & _ & _ & -> & _)
  end.

(** X10: a client that follows the scheme is let through. When the
  caller is authenticated as [u], the path is [/stats/] followed by the
  decimal form of an [int64] id [n], and the one [hash] parameter is
  the lower-case hex SHA-256 of [u]'s identity followed by that decimal
  form, the request passes parsing and authentication: its status is
  the one its method yields, a POST whose body decodes writes for
  [n], and a GET that connects queries [n]. *)
Theorem honest_client_passes (r : Request)
    (s : gmap (string * string) Stats) (l : list string) (u : User) (n : Z) :
  CurrentOAuth env r = inr u ->
  Go.inInt64 n ->
  Path r = "/stats/" ++ Go.fmt_d n ->
  Query r !! "hash" = Some [expectedHash (Email u) n] ->
  let σ := serve env r s l in
  status (writer σ) = Some (specMethodStatus env r)
  /\ (forall sub, Method r = "POST" -> Decode env (Body r) = inr sub ->
      redisCalls σ = [CPost n sub])
  /\ (Method r = "GET" -> connectErr env = None ->
      redisCalls σ = [CConnect; CQuery n]).
Proof.
  intros Hu Hn Hpath Hq.
  assert (Hui : getUserInfo env r
                = inr (mkUserInfo n (expectedHash (Email u) n))).
  { rewrite (getUserInfo_segment env r "/stats" (Go.fmt_d n))
      by (try done; apply fmt_d_no_slash).
    by rewrite Atoi_fmt_d, Hq. }
  apply getUserInfo_parsed in Hui as (Hbad & Hid & Hh). simpl in Hid, Hh.
  assert (Hm : hashMatches u r = true).
  { unfold hashMatches. rewrite Hh, Hid. apply String.eqb_refl. }
  cbv zeta. rewrite serve_outcome, Hbad, Hu. cbv zeta. rewrite Hm, Hid.
  unfold specMethodStatus.
  destruct (String.eqb_spec (Method r) "POST") as [HP|HP].
  { destruct (Decode env (Body r)) as [e|sub];
      [|destruct (postErr env)];
      use_replied_calls;
      (split; [reflexivity|split]); try congruence.
    all: intros HG; rewrite HG in HP; discriminate. }
  destruct (String.eqb_spec (Method r) "GET") as [HG|HG].
  { destruct (connectErr env); [|destruct (queryErr env)];
      use_replied_calls;
      (split; [reflexivity|split]); try congruence; try done. }
  simpl. split; [reflexivity|]. split; [intros; contradiction|contradiction].
Qed.

End ReplyFacts.

(** * Further properties of the archiver *)

Section SchedulingFacts.
Import StateM Archive.

Variable projectId : string.
Variable env : Archive.Env.

Local Arguments String.append : simpl never.

(** X11: the sleep of a cycle never overshoots. With a positive
  interval that fits a [Duration] and a clock that does not run
  backwards between the two readings of a cycle, the duration handed to
  [time.Sleep] is at most one interval; it is the exact distance to the
  boundary, and positive, when the second reading is still before the
  boundary, and it is zero or negative, so that the cycle archives at
  once, when the second reading has reached it. *)
Theorem sleep_bounded (dim : string) (i : Z) (w : World) :
  0 < i -> i <= maxDuration ->
  Now env (tick w) <= Now env (S (tick w)) ->
  let t0 := Now env (tick w) in
  let t1 := Now env (S (tick w)) in
  exists d,
    filter isSleep (events (archiveCycle projectId env dim i) w) = [ESleep d]
    /\ d <= i
    /\ (t1 < nextBoundary t0 i -> d = nextBoundary t0 i - t1 /\ 0 < d)
    /\ (nextBoundary t0 i <= t1 -> d <= 0).
Proof.
  intros Hi Hmax Hclock t0 t1.
  exists (Sub (nextBoundary t0 i) t1).
  split; [apply archiveCycle_sleep|].
  pose proof (Truncate_bounds t0 i Hi) as Hb.
  assert (HB : nextBoundary t0 i = Truncate t0 i + i) by reflexivity.
  fold t0 t1 in Hclock.
  unfold Sub, minDuration, maxDuration, Go.minInt64, Go.maxInt64 in *.
  destruct (Z.ltb_spec (nextBoundary t0 i - t1) (- 2 ^ 63));
    [|destruct (Z.ltb_spec (2 ^ 63 - 1) (nextBoundary t0 i - t1))];
    repeat split; intros; lia.
Qed.

(** X12: what [archiveToBigQuery] returns is the first answer that
  ends it, unwrapped. An error is the error of the query, of the table
  handle or of the write, and nothing is attempted after the failing
  call (no table without a query result, no clock reading and no write
  without a table); [nil] means either that the one write succeeded or
  that the query returned no entry, in which case nothing was written
  at all. *)
Theorem archiveToBigQuery_result (dim : string) (i : Z) (w : World) :
  let k := tick w in
  let evs := events (archiveToBigQuery projectId env dim i) w in
  match eval (archiveToBigQuery projectId env dim i) w with
  | Some err =>
      (QueryDims env k [dim] = inl err /\ evs = [EQueryDims [dim]])
      \/ (exists name stats rest,
           QueryDims env k [dim] = inr ((name, stats) :: rest)
           /\ NewStatsTable env (S k) projectId datasetId name = inl err
           /\ evs = [EQueryDims [dim];
                     ENewStatsTable projectId datasetId name])
      \/ (exists name stats rest table,
           QueryDims env k [dim] = inr ((name, stats) :: rest)
           /\ NewStatsTable env (S k) projectId datasetId name = inr table
           /\ WriteStats env (S (S (S k))) table stats
                (Truncate (Now env (S (S k))) i) = Some err
           /\ filter isWrite evs =
              [EWriteStats table stats (Truncate (Now env (S (S k))) i)])
  | None =>
      (QueryDims env k [dim] = inr [] /\ evs = [EQueryDims [dim]])
      \/ (exists name stats rest table,
           QueryDims env k [dim] = inr ((name, stats) :: rest)
           /\ NewStatsTable env (S k) projectId datasetId name = inr table
           /\ WriteStats env (S (S (S k))) table stats
                (Truncate (Now env (S (S k))) i) = None
           /\ filter isWrite evs =
              [EWriteStats table stats (Truncate (Now env (S (S k))) i)])
  end.
Proof.
  cbv zeta.
  pose proof (archiveToBigQuery_run projectId env dim i w) as Hrun.
  cbv zeta in Hrun. unfold eval.
  destruct (QueryDims env (tick w) [dim]) as [err|[|[name stats] rest]].
  - rewrite (events_advance _ w 1 [EQueryDims [dim]])
      by (unfold exec; by rewrite Hrun).
    rewrite Hrun. simpl. by left.
  - rewrite (events_advance _ w 1 [EQueryDims [dim]])
      by (unfold exec; by rewrite Hrun).
    rewrite Hrun. simpl. by left.
  - destruct (NewStatsTable env (S (tick w)) projectId datasetId name)
      as [err|table] eqn:Htable.
    + rewrite (events_advance _ w 2
                 [EQueryDims [dim]; ENewStatsTable projectId datasetId name])
        by (unfold exec; by rewrite Hrun).
      rewrite Hrun. simpl. right. left. by exists name, stats, rest.
    + erewrite events_advance by (unfold exec; by rewrite Hrun).
      rewrite Hrun. cbn [fst].
      destruct (WriteStats env _ table stats _) as [err|] eqn:Hw.
      * right. right. by exists name, stats, rest, table.
      * right. by exists name, stats, rest, table.
Qed.

(** A cycle that wrote made six calls, and its write was stamped with
  the fifth answer, a clock reading. *)
Lemma archiveCycle_wrote (dim : string) (i : Z) (w : World)
    (table : StatsTable) (stats : DimStats) (ts : Z) :
  In (EWriteStats table stats ts)
     (events (archiveCycle projectId env dim i) w) ->
  ts = Truncate (Now env (4 + tick w)) i
  /\ tick (exec (archiveCycle projectId env dim i) w) = (6 + tick w)%nat.
Proof.
  intros Hin.
  destruct (archiveCycle_events projectId env dim i w) as [Hc _].
  cbv zeta in Hc. rewrite Hc in Hin. clear Hc.
  apply in_app_or in Hin as [Hin|Hin].
  { simpl in Hin. destruct Hin as [H|[H|[H|[]]]]; discriminate. }
  apply in_app_or in Hin as [Hin|Hin].
  2:{ destruct (eval _ _); simpl in Hin; [destruct Hin as [H|[]]|destruct Hin].
      discriminate. }
  apply archiveToBigQuery_write in Hin as [Hts (name & rest & Hq & Ht)].
  split; [exact Hts|].
  rewrite archiveCycle_run. cbv zeta.
  pose proof (archiveToBigQuery_run projectId env dim i (waited env i w))
    as Hrun.
  cbv zeta in Hrun. rewrite Hq, Ht in Hrun.
  unfold exec, eval. rewrite Hrun. cbn [fst snd].
  by destruct (WriteStats env _ table stats _).
Qed.

(** X13: snapshots of consecutive cycles are at least one interval
  apart. When two cycles in a row both write, the clock does not run
  backwards from the first write to the start of the second cycle, and
  the second write is issued no earlier than the boundary its cycle
  slept for, the second timestamp is at least one interval after the
  first: no window is stamped twice. *)
Theorem timestamps_advance (dim : string) (i : Z) (w : World)
    (table1 table2 : StatsTable) (stats1 stats2 : DimStats) (ts1 ts2 : Z) :
  0 < i ->
  In (EWriteStats table1 stats1 ts1)
     (events (archiveCycle projectId env dim i) w) ->
  In (EWriteStats table2 stats2 ts2)
     (events (archiveCycle projectId env dim i)
        (exec (archiveCycle projectId env dim i) w)) ->
  Now env (4 + tick w) <= Now env (6 + tick w) ->
  nextBoundary (Now env (6 + tick w)) i <= Now env (10 + tick w) ->
  ts1 + i <= ts2.
Proof.
  intros Hi H1 H2 Hclock Hslept.
  apply archiveCycle_wrote in H1 as [-> Htick].
  apply archiveCycle_wrote in H2 as [-> _].
  rewrite Htick.
  change (4 + (6 + tick w))%nat with (10 + tick w)%nat.
  set (tw1 := Now env (4 + tick w)) in *.
  set (t0 := Now env (6 + tick w)) in *.
  set (tw2 := Now env (10 + tick w)) in *.
  rewrite nextBoundary_multiple in Hslept by done.
  rewrite !Truncate_multiple by done.
  pose proof (Truncate_bounds tw1 i Hi) as Hb1.
  pose proof (Truncate_bounds t0 i Hi) as Hb0.
  rewrite Truncate_multiple in Hb1, Hb0 by done.
  assert (Hq : t0 / i + 1 <= tw2 / i).
  { apply Z.div_le_lower_bound; lia. }
  assert (Hq1 : tw1 / i <= t0 / i) by (apply Z.div_le_mono; lia).
  nia.
Qed.

(** X14: boundaries and timestamps fall on the wall clock. For an
  interval that divides a day, as the three configured ones do, the
  boundary a cycle sleeps until and the timestamp it writes are whole
  multiples of the interval in Unix time as well: every ten minutes on
  the ten minutes, every hour on the hour, every day at midnight UTC. *)
Theorem boundaries_on_wall_clock (t i : Z) :
  0 < i -> (i | 24 * Hour) ->
  (i | nextBoundary t i - unixEpoch)
  /\ (i | Truncate t i - unixEpoch)
  /\ (10 * Minute | 24 * Hour) /\ (1 * Hour | 24 * Hour)
  /\ (24 * Hour | 24 * Hour).
Proof.
  intros Hi Hday.
  assert (Hu : (i | unixEpoch)).
  { apply (Z.divide_trans _ (24 * Hour)); [done|].
    exists 719162. reflexivity. }
  split; [by apply nextBoundary_unix|]. split.
  - apply Z.divide_sub_r; [|done].
    rewrite Truncate_multiple by done. apply Z.divide_factor_l.
  - split; [by exists 144|]. split; [by exists 24 | by exists 1].
Qed.

(** Over [n] iterations the loop asks for its own dimension [n] times
  and for nothing else. *)
Lemma archiveLoop_queries (n : nat) (dim : string) (i : Z) (w : World) :
  exists k evs,
    exec (archiveLoop projectId env n dim i) w = advance w k evs
    /\ filter isQuery evs = repeat (EQueryDims [dim]) n
    /\ (length (filter isWrite evs) <= n)%nat.
Proof.
  induction n as [|n (k & evs & Hn & Hq & Hw)].
  - exists 0%nat, []. split; [|by split].
    unfold exec, advance. simpl. rewrite app_nil_r. by destruct w.
  - rewrite archiveLoop_snoc.
    destruct (archiveCycle_events projectId env dim i (advance w k evs))
      as [Hc [m Hm]].
    destruct (archiveToBigQuery_events projectId env dim i
                (waited env i (advance w k evs)))
      as (n' & evs' & Hexec & _ & _ & Hq' & Hw').
    rewrite Hn, Hm, advance_advance.
    eexists _, _. split; [reflexivity|].
    rewrite !filter_app, length_app, Hq, Hc.
    rewrite (events_advance _ _ _ _ Hexec).
    rewrite !filter_app, Hq'.
    split.
    + destruct (eval _ _); simpl; rewrite ?app_nil_r;
        by rewrite repeat_cons.
    + destruct (eval _ _); simpl; rewrite ?length_app; simpl; lia.
Qed.

(** X15: the loop of a dimension only ever asks for that dimension.
  Over any number [n] of iterations, whatever the answers, it issues
  exactly [n] queries, each for the one dimension it was started with,
  and at most [n] writes. *)
Theorem archive_loop_queries (n : nat) (dim : string) (i : Z) (w : World) :
  let evs := events (archiveLoop projectId env n dim i) w in
  filter isQuery evs = repeat (EQueryDims [dim]) n
  /\ (length (filter isWrite evs) <= n)%nat.
Proof.
  cbv zeta.
  destruct (archiveLoop_queries n dim i w) as (k & evs & He & Hq & Hw).
  by rewrite (events_advance _ _ _ _ He).
Qed.

End SchedulingFacts.

Section StartTwice.
Import StateM Archive.

(** X16: [Start] keeps no record of having run. Called twice with a
  project identifier, it starts the three loops twice, in the same
  order, so that every dimension is archived by two goroutines. *)
Theorem Start_twice (projectId : string) (p : Process) :
  projectId <> EmptyString ->
  goroutines (exec (Start projectId ;;; Start projectId) p) =
  (goroutines p
   ++ [mkTask "fallback" (10 * Minute); mkTask "country" (1 * Hour);
       mkTask "user" (24 * Hour)]
   ++ [mkTask "fallback" (10 * Minute); mkTask "country" (1 * Hour);
       mkTask "user" (24 * Hour)])%list.
Proof.
  intros Hne. apply String.eqb_neq in Hne.
  unfold Start. rewrite Hne.
  unfold exec, bind, logLine, archivePeriodically, modify. simpl.
  by rewrite <- !app_assoc.
Qed.

End StartTwice.

(** * The further properties at sample inputs *)

Section MoreWitnesses.
Import StateM Examples MoreExamples.

Lemma int64_523523 : Go.inInt64 523523.
Proof. vm_compute. split; discriminate. Defined.

Lemma getUserInfo_roundtrip_witness :
  "/stats" <> EmptyString
  /\ Go.inInt64 523523
  /\ Statshub.getUserInfo exEnv (exRequest "POST" exHash)
     = inr (Statshub.mkUserInfo 523523 exHash).
Proof.
  assert (Hp : "/stats" <> EmptyString) by discriminate.
  refine (conj Hp (conj int64_523523 _)).
  apply (getUserInfo_roundtrip exEnv (exRequest "POST" exHash) "/stats"
           523523 exHash Hp int64_523523); vm_compute; reflexivity.
Defined.

Lemma getUserInfo_root_path_witness :
  Text.contains "/" "523523" = false
  /\ Statshub.getUserInfo exEnv (pathRequest "/523523")
     = inl "Request URL is missing user id".
Proof.
  split; [reflexivity|].
  apply (getUserInfo_root_path exEnv (pathRequest "/523523") "523523");
    reflexivity.
Defined.

Lemma getUserInfo_stats_path_witness :
  Statshub.Path (pathRequest "/stats/") = "/stats/" ++ EmptyString
  /\ Statshub.getUserInfo exEnv (pathRequest "/stats/")
     <> inl "Request URL is missing user id"
  /\ Statshub.getUserInfo exEnv (pathRequest "/stats/")
     = inl "Unable to convert userId  to int: ".
Proof.
  destruct (getUserInfo_stats_path exEnv (pathRequest "/stats/") EmptyString
              eq_refl) as (Hne & Hempty & _).
  exact (conj eq_refl (conj Hne (Hempty eq_refl))).
Defined.

Lemma getUserInfo_out_of_range_witness :
  ~ Go.inInt64 (2 ^ 63)
  /\ Statshub.getUserInfo exEnv (pathRequest "/stats/9223372036854775808")
     = inl "Unable to convert userId 9223372036854775808 to int: 9223372036854775808".
Proof.
  assert (Hn : ~ Go.inInt64 (2 ^ 63)).
  { vm_compute. intros [_ H]. by apply H. }
  refine (conj Hn _).
  apply (getUserInfo_out_of_range exEnv
           (pathRequest "/stats/9223372036854775808") (2 ^ 63) Hn).
  vm_compute. reflexivity.
Defined.

Lemma getUserInfo_spellings_witness :
  0 <= 523523
  /\ Go.inInt64 523523
  /\ Statshub.getUserInfo exEnv (pathRequest "/stats/+523523")
     = inr (Statshub.mkUserInfo 523523 exHash)
  /\ Statshub.getUserInfo exEnv (pathRequest "/stats/0523523")
     = inr (Statshub.mkUserInfo 523523 exHash).
Proof.
  assert (H0 : 0 <= 523523) by discriminate.
  refine (conj H0 (conj int64_523523 (conj _ _))).
  - apply (getUserInfo_spellings exEnv (pathRequest "/stats/+523523")
             523523 exHash "+" H0 int64_523523 (or_introl eq_refl));
      vm_compute; reflexivity.
  - apply (getUserInfo_spellings exEnv (pathRequest "/stats/0523523")
             523523 exHash "0" H0 int64_523523 (or_intror eq_refl));
      vm_compute; reflexivity.
Defined.

Lemma authenticateAgainst_format_witness :
  Statshub.CurrentOAuth exEnv (exRequest "POST" upperHash) = inr exUser
  /\ Text.allChars Text.isLowerHex upperHash = false
  /\ eval (Statshub.authenticateAgainst exEnv
             (Statshub.mkUserInfo 523523 upperHash)
             (exRequest "POST" upperHash)) (freshWorld ∅)
     = (403, Some "Hash mismatch, authentication failure").
Proof.
  assert (Hc : Text.allChars Text.isLowerHex upperHash = false)
    by (vm_compute; reflexivity).
  refine (conj eq_refl (conj Hc _)).
  exact (authenticateAgainst_format exEnv
           (Statshub.mkUserInfo 523523 upperHash)
           (exRequest "POST" upperHash) exUser (freshWorld ∅) eq_refl
           (or_intror Hc)).
Defined.

Lemma hash_input_ambiguous_witness :
  0 < 52 /\ 0 <= 3 <= 9
  /\ Statshub.expectedHash "user@example.com52" 3
     = Statshub.expectedHash "user@example.com" 523.
Proof.
  assert (Ha : 0 < 52) by reflexivity.
  assert (Hd : 0 <= 3 <= 9) by (split; discriminate).
  refine (conj Ha (conj Hd _)).
  exact (proj1 (hash_input_ambiguous (envFor digitUser) "user@example.com"
                  52 3 (envFor exUser) (exRequest "POST" exHash) exHash
                  (freshWorld ∅) Ha Hd eq_refl eq_refl)).
Defined.

Lemma redis_calls_authenticated_witness :
  In (Statshub.CPost 523523 exSubmission)
     (Statshub.redisCalls
        (Statshub.serve exEnv (exRequest "POST" exHash) ∅ []))
  /\ Statshub.authFails exEnv (exRequest "POST" exHash) = false
  /\ Statshub.redisCalls
       (Statshub.serve exEnv (exRequest "POST" exHash) ∅ [])
     = [Statshub.CPost 523523 exSubmission].
Proof.
  assert (Hin : In (Statshub.CPost 523523 exSubmission)
                   (Statshub.redisCalls
                      (Statshub.serve exEnv (exRequest "POST" exHash) ∅ []))).
  { vm_compute. left. reflexivity. }
  destruct (redis_calls_authenticated exEnv (exRequest "POST" exHash) ∅ []
              _ Hin) as (_ & Hauth & _ & _ & _ & Hcalls).
  exact (conj Hin (conj Hauth Hcalls)).
Defined.

Lemma expected_hash_logged_witness :
  Statshub.badUserId (exRequest "POST" otherHash)
    || Statshub.badHash (exRequest "POST" otherHash) = false
  /\ Statshub.status
       (Statshub.writer
          (Statshub.serve exEnv (exRequest "POST" otherHash) ∅ []))
     = Some 403
  /\ In ("Expected hash: " ++ Statshub.expectedHash "user@example.com" 523523)
        (Statshub.log
           (Statshub.serve exEnv (exRequest "POST" otherHash) ∅ [])).
Proof.
  assert (Hb : Statshub.badUserId (exRequest "POST" otherHash)
               || Statshub.badHash (exRequest "POST" otherHash) = false)
    by (vm_compute; reflexivity).
  refine (conj Hb (conj _ _)).
  - vm_compute. reflexivity.
  - exact (expected_hash_logged exEnv (exRequest "POST" otherHash) ∅ []
             exUser Hb eq_refl).
Defined.

Lemma honest_client_passes_witness :
  Statshub.CurrentOAuth exEnv (exRequest "POST" exHash) = inr exUser
  /\ Go.inInt64 523523
  /\ Statshub.status
       (Statshub.writer (Statshub.serve exEnv (exRequest "POST" exHash) ∅ []))
     = Some (Statshub.specMethodStatus exEnv (exRequest "POST" exHash))
  /\ Statshub.redisCalls (Statshub.serve exEnv (exRequest "POST" exHash) ∅ [])
     = [Statshub.CPost 523523 exSubmission].
Proof.
  assert (Hq : Statshub.Query (exRequest "POST" exHash) !! "hash"
               = Some [Statshub.expectedHash (Statshub.Email exUser) 523523])
    by (vm_compute; reflexivity).
  assert (Hp : Statshub.Path (exRequest "POST" exHash)
               = "/stats/" ++ Go.fmt_d 523523)
    by (vm_compute; reflexivity).
  destruct (honest_client_passes exEnv (exRequest "POST" exHash) ∅ [] exUser
              523523 eq_refl int64_523523 Hp Hq) as (Hs & Hpost & _).
  exact (conj eq_refl (conj int64_523523
           (conj Hs (Hpost exSubmission eq_refl eq_refl)))).
Defined.

Lemma sleep_bounded_witness :
  0 < tenMinutes /\ tenMinutes <= Archive.maxDuration
  /\ punctualClock 0 <= punctualClock 1
  /\ exists d,
      filter Archive.isSleep
        (Archive.events
           (Archive.archiveCycle "lantern" (exArchive punctualClock)
              "fallback" tenMinutes) startWorld)
      = [Archive.ESleep d]
      /\ d <= tenMinutes.
Proof.
  assert (Hi : 0 < tenMinutes) by reflexivity.
  assert (Hm : tenMinutes <= Archive.maxDuration) by discriminate.
  assert (Hc : punctualClock 0 <= punctualClock 1) by discriminate.
  destruct (sleep_bounded "lantern" (exArchive punctualClock) "fallback"
              tenMinutes startWorld Hi Hm Hc) as (d & Hd & Hle & _).
  exact (conj Hi (conj Hm (conj Hc (ex_intro _ d (conj Hd Hle))))).
Defined.

Lemma timestamps_advance_witness :
  0 < tenMinutes
  /\ steadyClock 4 <= steadyClock 6
  /\ Archive.nextBoundary (steadyClock 6) tenMinutes <= steadyClock 10
  /\ seconds 1200 + tenMinutes <= seconds 1800.
Proof.
  assert (Hi : 0 < tenMinutes) by reflexivity.
  assert (Hc : steadyClock 4 <= steadyClock 6) by discriminate.
  assert (Hs : Archive.nextBoundary (steadyClock 6) tenMinutes
               <= steadyClock 10) by discriminate.
  refine (conj Hi (conj Hc (conj Hs _))).
  apply (timestamps_advance "lantern" (exArchive steadyClock) "fallback"
           tenMinutes startWorld exTable exTable fallbackStats fallbackStats
           (seconds 1200) (seconds 1800) Hi).
  - vm_compute. do 6 right. left. reflexivity.
  - vm_compute. do 6 right. left. reflexivity.
  - exact Hc.
  - exact Hs.
Defined.

Lemma boundaries_on_wall_clock_witness :
  0 < tenMinutes /\ (tenMinutes | 24 * Archive.Hour)
  /\ (tenMinutes
      | Archive.nextBoundary (punctualClock 0) tenMinutes - Archive.unixEpoch).
Proof.
  assert (Hi : 0 < tenMinutes) by reflexivity.
  assert (Hd : (tenMinutes | 24 * Archive.Hour)) by (by exists 144).
  exact (conj Hi (conj Hd
           (proj1 (boundaries_on_wall_clock (punctualClock 0) tenMinutes
                     Hi Hd)))).
Defined.

Lemma Start_twice_witness :
  "lantern" <> EmptyString
  /\ length (Archive.goroutines
               (exec (Archive.Start "lantern" ;;; Archive.Start "lantern")
                     idleProcess)) = 6%nat.
Proof.
  assert (Hne : "lantern" <> EmptyString) by discriminate.
  refine (conj Hne _).
  rewrite (Start_twice "lantern" idleProcess Hne). reflexivity.
Defined.

End MoreWitnesses.

Section LoopSamples.
Import StateM Examples MoreExamples.

(** Two iterations against an unreachable store: each one waits,
  queries once and logs the failure, and the goroutine is still in its
  loop afterwards. *)
Example unreachable_store_sample :
  Loop.archiveGoroutine "lantern" (downArchive lateClock) 2 "fallback"
    tenMinutes startWorld
  = (Archive.Next,
     Archive.mkWorld 6
       [Archive.ENow (seconds 1000); Archive.ENow (seconds 1000);
        Archive.ESleep (seconds 200);
        Archive.EQueryDims ["fallback"];
        Archive.ELog
          "Unable to archive dimension fallback to BigQuery: connection refused";
        Archive.ENow (seconds 1900); Archive.ENow (seconds 1900);
        Archive.ESleep (seconds 500);
        Archive.EQueryDims ["fallback"];
        Archive.ELog
          "Unable to archive dimension fallback to BigQuery: connection refused"]).
Proof. vm_compute. reflexivity. Qed.

End LoopSamples.
